(** * Network Topology Learning API: quiz grading and request handlers

    A shallow embedding of [main.py] and [schemas.py].  Python [int] is [Z],
    [str] is [string], [Optional[T]] is [option T].  A Python [dict] whose
    iteration order can be observed (a request body, the submitted answer
    map) is the list of its items in insertion order; the static quiz bank,
    only ever read by key, is a [gmap].  A handler that talks to the document
    store threads the store explicitly and returns either its value or the
    [HTTPException] it raises. *)

From Stdlib Require Import ZArith Ascii String List Lia.
From stdpp Require Import base option list strings gmap.

Local Open Scope string_scope.
Local Open Scope list_scope.
Local Set Warnings "-register-all".

(** ** Python values *)

(** [int(x)] on a value that already is an [int]. *)
Definition py_int (x : Z) : Z := x.

(** Items of a [dict] with [str] keys, in insertion order. *)
Definition pydict (V : Type) : Type := list (string * V).

(** [d.get(k, default)]. *)
Fixpoint dict_get {V : Type} (d : pydict V) (k : string) (default : V) : V :=
  match d with
  | [] => default
  | (k', v) :: d' => if String.eqb k' k then v else dict_get d' k default
  end.

(** [d.get(k)], with [None] for a missing key. *)
Fixpoint dict_lookup {V : Type} (d : pydict V) (k : string) : option V :=
  match d with
  | [] => None
  | (k', v) :: d' => if String.eqb k' k then Some v else dict_lookup d' k
  end.

Definition dict_keys {V : Type} (d : pydict V) : list string := map fst d.

(** A [dict] never holds one key twice. *)
Definition dict_wf {V : Type} (d : pydict V) : Prop := NoDup (dict_keys d).

(** [s.lower()] on ASCII letters. *)
Definition lower_ascii (c : ascii) : ascii :=
  let n := nat_of_ascii c in
  if (65 <=? n)%nat && (n <=? 90)%nat then ascii_of_nat (n + 32) else c.

Fixpoint lower (s : string) : string :=
  match s with
  | EmptyString => EmptyString
  | String c s' => String (lower_ascii c) (lower s')
  end.

(** A parsed JSON value.  A number is a Python [int] or a finite [float];
    [JFloat m e] is the float of value [m * 2^e]. *)
Inductive json : Type :=
  | JNull : json
  | JBool : bool -> json
  | JInt : Z -> json
  | JFloat : Z -> Z -> json
  | JStr : string -> json
  | JArr : list json -> json
  | JObj : list (string * json) -> json.

(** Either the value a call returns or the exception it raises. *)
Inductive result (E A : Type) : Type :=
  | Ok : A -> result E A
  | Err : E -> result E A.
Arguments Ok {E A} _.
Arguments Err {E A} _.

(** A Python exception, as far as the handlers look at it: [str(e)], the
    text as its UTF-8 bytes. *)
Record Exception : Type := mkException { str_exc : string }.

(** [fastapi.HTTPException(status_code=..., detail=...)]. *)
Record HTTPException : Type := mkHTTPException {
  status_code : Z;
  detail : string
}.

(** ** schemas.py *)

Record WorksheetAnswer : Type := mkWorksheetAnswer {
  question_id : string;
  answer_text : string
}.

Record Worksheet : Type := mkWorksheet {
  ws_student_name : string;
  ws_class_name : string;
  ws_topic : string;
  ws_answers : list WorksheetAnswer
}.

Record Reflection : Type := mkReflection {
  worksheet_id : string;
  rf_student_name : string;
  understanding_level : Z;
  feelings : option string;
  challenges : option string;
  rf_questions : option string
}.

Record QuizQuestion : Type := mkQuizQuestion {
  qq_id : string;
  qq_question : string;
  qq_options : list string
}.

Record QuizSubmission : Type := mkQuizSubmission {
  student_name : option string;
  quiz_key : string;
  answers : pydict Z;
  score : option Z;
  total : option Z;
  details : option (list (pydict json))
}.

(** The schema classes, for [model_cls.__name__]. *)
Inductive model_cls : Type :=
  | cls_WorksheetAnswer
  | cls_Worksheet
  | cls_Reflection
  | cls_QuizQuestion
  | cls_QuizSubmission.

Definition cls_name (c : model_cls) : string :=
  match c with
  | cls_WorksheetAnswer => "WorksheetAnswer"
  | cls_Worksheet => "Worksheet"
  | cls_Reflection => "Reflection"
  | cls_QuizQuestion => "QuizQuestion"
  | cls_QuizSubmission => "QuizSubmission"
  end.

(** ** main.py: the static quiz bank *)

(** One entry of a bank quiz's ["questions"] list. *)
Record BankQuestion : Type := mkBankQuestion {
  bq_id : string;
  bq_question : string;
  bq_options : list string;
  bq_answer : Z
}.

(** One value of [QUIZ_BANK]: a dict with the keys ["title"] and
    ["questions"], hence never falsy. *)
Record BankQuiz : Type := mkBankQuiz {
  bank_title : string;
  bank_questions : list BankQuestion
}.

Definition network_topologies : BankQuiz :=
  {| bank_title := "Computer Network Topologies";
     bank_questions :=
       [ {| bq_id := "q1";
            bq_question := "Which topology uses a central hub/switch to connect all nodes?";
            bq_options := ["Bus"; "Star"; "Ring"; "Mesh"];
            bq_answer := 1 |};
         {| bq_id := "q2";
            bq_question := "In which topology does data travel in one direction around a closed loop?";
            bq_options := ["Ring"; "Tree"; "Hybrid"; "Bus"];
            bq_answer := 0 |};
         {| bq_id := "q3";
            bq_question := "Which topology provides multiple redundant paths between nodes?";
            bq_options := ["Mesh"; "Bus"; "Star"; "Tree"];
            bq_answer := 0 |};
         {| bq_id := "q4";
            bq_question := "A backbone cable with terminators at both ends describes which topology?";
            bq_options := ["Bus"; "Star"; "Tree"; "Hybrid"];
            bq_answer := 0 |};
         {| bq_id := "q5";
            bq_question := "Which topology is a hierarchical combination of star topologies?";
            bq_options := ["Mesh"; "Tree"; "Ring"; "Bus"];
            bq_answer := 1 |};
         {| bq_id := "q6";
            bq_question := "A network combining multiple topology types is called?";
            bq_options := ["Composite"; "Mixed"; "Hybrid"; "Aggregate"];
            bq_answer := 2 |} ] |}.

Definition QUIZ_BANK : gmap string BankQuiz :=
  {[ "network-topologies" := network_topologies ]}.

(** ** main.py: response models *)

Record QuizDefinition : Type := mkQuizDefinition {
  title : string;
  questions : list QuizQuestion
}.

(** One element of the [details] list that [submit_quiz] builds. *)
Record Detail : Type := mkDetail {
  d_id : string;
  d_question : string;
  d_selected : Z;
  d_correct_answer : Z;
  d_is_correct : bool
}.

(** The [result] dict of [submit_quiz]. *)
Record QuizResult : Type := mkQuizResult {
  r_student_name : option string;
  r_quiz_key : string;
  r_score : Z;
  r_total : Z;
  r_details : list Detail
}.

(** ** main.py: database helpers *)

Definition collection_name (c : model_cls) : string := lower (cls_name c).

(** What a handler hands to [create_document]: a schema instance or the
    result dict. *)
Inductive Document : Type :=
  | DocWorksheet : Worksheet -> Document
  | DocReflection : Reflection -> Document
  | DocQuizResult : QuizResult -> Document.

(** ** main.py: quiz endpoints *)

Definition get_quiz (quiz_key : string) : result HTTPException QuizDefinition :=
  match QUIZ_BANK !! quiz_key with
  | None => Err (mkHTTPException 404 "Quiz not found")
  | Some data =>
      let questions :=
        map (fun q => mkQuizQuestion (bq_id q) (bq_question q) (bq_options q))
            (bank_questions data) in
      Ok (mkQuizDefinition (bank_title data) questions)
  end.

(** One turn of the [for q in data["questions"]] loop, on the pair
    [(correct, details)]. *)
Definition submit_quiz_step (answers : pydict Z)
    (acc : Z * list Detail) (q : BankQuestion) : Z * list Detail :=
  let '(correct, details) := acc in
  let qid := bq_id q in
  let selected := dict_get answers qid (-1)%Z in
  let is_correct := (py_int selected =? py_int (bq_answer q))%Z in
  let correct := if is_correct then (correct + 1)%Z else correct in
  (correct,
   details ++ [ {| d_id := qid;
                   d_question := bq_question q;
                   d_selected := selected;
                   d_correct_answer := bq_answer q;
                   d_is_correct := is_correct |} ]).

Definition submit_quiz_loop (answers : pydict Z) (qs : list BankQuestion)
    : Z * list Detail :=
  fold_left (submit_quiz_step answers) qs (0%Z, []).

(** The dict that one turn of the loop appends for question [q]. *)
Definition detail_of (answers : pydict Z) (q : BankQuestion) : Detail :=
  let selected := dict_get answers (bq_id q) (-1)%Z in
  {| d_id := bq_id q;
     d_question := bq_question q;
     d_selected := selected;
     d_correct_answer := bq_answer q;
     d_is_correct := (py_int selected =? py_int (bq_answer q))%Z |}.

(** [count(details where is_correct)]. *)
Definition count_correct (details : list Detail) : Z :=
  Z.of_nat (length (List.filter d_is_correct details)).

(** The [result] dict that [submit_quiz] builds from the bank entry [data],
    written without the loop. *)
Definition graded (quiz_key : string) (data : BankQuiz) (payload : QuizSubmission)
    : QuizResult :=
  {| r_student_name := student_name payload;
     r_quiz_key := quiz_key;
     r_score := count_correct (map (detail_of (answers payload)) (bank_questions data));
     r_total := Z.of_nat (length (bank_questions data));
     r_details := map (detail_of (answers payload)) (bank_questions data) |}.

(** [payload] with another answer map, all other fields kept. *)
Definition with_answers (payload : QuizSubmission) (a : pydict Z) : QuizSubmission :=
  {| student_name := student_name payload;
     quiz_key := quiz_key payload;
     answers := a;
     score := score payload;
     total := total payload;
     details := details payload |}.

Section Handlers.

(** The document store and the two collaborators of the handlers that
    live outside [main.py].  [database.create_document(collection, data)]
    inserts one document: it returns the new id or raises, may change the
    store either way, and leaves the object it is handed as it is.
    [bson.ObjectId(s)] returns an id or raises on a malformed string. *)
Context {Store oid : Type}.
Variable create_document :
  string -> Document -> Store -> result Exception string * Store.
Variable ObjectId : string -> result Exception oid.

Definition submit_worksheet (payload : Worksheet) (db : Store)
    : result HTTPException string * Store :=
  match create_document (collection_name cls_Worksheet) (DocWorksheet payload) db with
  | (Ok inserted_id, db') => (Ok inserted_id, db')
  | (Err e, db') => (Err (mkHTTPException 500 (str_exc e)), db')
  end.

Definition submit_reflection (payload : Reflection) (db : Store)
    : result HTTPException string * Store :=
  match ObjectId (worksheet_id payload) with
  | Err _ => (Err (mkHTTPException 400 "Invalid worksheet_id"), db)
  | Ok _ =>
      match create_document (collection_name cls_Reflection) (DocReflection payload) db with
      | (Ok inserted_id, db') => (Ok inserted_id, db')
      | (Err e, db') => (Err (mkHTTPException 500 (str_exc e)), db')
      end
  end.

Definition submit_quiz (quiz_key : string) (payload : QuizSubmission) (db : Store)
    : result HTTPException QuizResult * Store :=
  match QUIZ_BANK !! quiz_key with
  | None => (Err (mkHTTPException 404 "Quiz not found"), db)
  | Some data =>
      let total := Z.of_nat (length (bank_questions data)) in
      let '(correct, details) :=
        submit_quiz_loop (answers payload) (bank_questions data) in
      let score := correct in
      let result :=
        {| r_student_name := student_name payload;
           r_quiz_key := quiz_key;
           r_score := score;
           r_total := total;
           r_details := details |} in
      match create_document "quizsubmission" (DocQuizResult result) db with
      | (Ok _, db') => (Ok result, db')
      | (Err _, db') => (Ok result, db')
      end
  end.

End Handlers.

(** ** The framework around the handlers

    FastAPI binds the JSON body of a request to the handler's schema
    argument before it calls the handler, turns a raised [HTTPException]
    into a response with that status and the body [{"detail": ...}], and
    encodes what the handler returns as JSON. *)

Inductive Response : Type :=
  | JSONResponse (status : Z) (body : json)
  | RequestValidationError.  (* answered with status 422 *)

Definition http_exception_handler (e : HTTPException) : Response :=
  JSONResponse (status_code e) (JObj [("detail", JStr (detail e))]).

Definition json_field (j : json) (k : string) : option json :=
  match j with
  | JObj fields => dict_lookup fields k
  | _ => None
  end.

Definition json_optional_str (s : option string) : json :=
  match s with
  | None => JNull
  | Some s => JStr s
  end.

Definition QuizQuestion_json (q : QuizQuestion) : json :=
  JObj [("id", JStr (qq_id q));
        ("question", JStr (qq_question q));
        ("options", JArr (map JStr (qq_options q)))].

Definition QuizDefinition_json (d : QuizDefinition) : json :=
  JObj [("title", JStr (title d));
        ("questions", JArr (map QuizQuestion_json (questions d)))].

Definition Detail_json (d : Detail) : json :=
  JObj [("id", JStr (d_id d));
        ("question", JStr (d_question d));
        ("selected", JInt (d_selected d));
        ("correct_answer", JInt (d_correct_answer d));
        ("is_correct", JBool (d_is_correct d))].

Definition QuizResult_json (r : QuizResult) : json :=
  JObj [("student_name", json_optional_str (r_student_name r));
        ("quiz_key", JStr (r_quiz_key r));
        ("score", JInt (r_score r));
        ("total", JInt (r_total r));
        ("details", JArr (map Detail_json (r_details r)))].

Definition inserted_json (inserted_id : string) : json :=
  JObj [("id", JStr inserted_id)].

Section Validation.

(** The validator of an [int] field, [None] when it rejects the value.
    Which non-integer inputs it coerces is the schema library's affair. *)
Variable validate_int : json -> option Z.

(** A [str] field takes a JSON string and nothing else. *)
Definition validate_str (j : json) : option string :=
  match j with
  | JStr s => Some s
  | _ => None
  end.

(** [Optional[T]] with default [None]: a missing key and [null] both give
    [None]. *)
Definition validate_optional {A : Type} (v : json -> option A)
    (field : option json) : option (option A) :=
  match field with
  | None | Some JNull => Some None
  | Some j => a ← v j; Some (Some a)
  end.

(** [Dict[str, int]]: an object whose values all validate as [int]. *)
Definition validate_dict_int (j : json) : option (pydict Z) :=
  match j with
  | JObj items => mapM (fun kv => z ← validate_int kv.2; Some (kv.1, z)) items
  | _ => None
  end.

(** [List[Dict[str, Any]]]. *)
Definition validate_list_dict (j : json) : option (list (pydict json)) :=
  match j with
  | JArr l => mapM (fun x => match x with JObj d => Some d | _ => None end) l
  | _ => None
  end.

(** [QuizSubmission.model_validate(body)]; [None] is a validation error.
    Keys of the body that the schema does not name are ignored. *)
Definition QuizSubmission_validate (body : json) : option QuizSubmission :=
  match body with
  | JObj fields =>
      student_name ← validate_optional validate_str (dict_lookup fields "student_name");
      quiz_key ← dict_lookup fields "quiz_key" ≫= validate_str;
      answers ← match dict_lookup fields "answers" with
                | None => Some []
                | Some j => validate_dict_int j
                end;
      score ← validate_optional validate_int (dict_lookup fields "score");
      total ← validate_optional validate_int (dict_lookup fields "total");
      details ← validate_optional validate_list_dict (dict_lookup fields "details");
      Some (mkQuizSubmission student_name quiz_key answers score total details)
  | _ => None
  end.

End Validation.

Section Routes.

Context {Store oid : Type}.
Variable create_document :
  string -> Document -> Store -> result Exception string * Store.
Variable ObjectId : string -> result Exception oid.
Variable validate_int : json -> option Z.

(** [GET /api/quizzes/{quiz_key}] *)
Definition route_get_quiz (quiz_key : string) : Response :=
  match get_quiz quiz_key with
  | Ok d => JSONResponse 200 (QuizDefinition_json d)
  | Err e => http_exception_handler e
  end.

(** [POST /api/quizzes/{quiz_key}/submit] *)
Definition route_submit_quiz (quiz_key : string) (body : json) (db : Store)
    : Response * Store :=
  match QuizSubmission_validate validate_int body with
  | None => (RequestValidationError, db)
  | Some payload =>
      match submit_quiz create_document quiz_key payload db with
      | (Ok r, db') => (JSONResponse 200 (QuizResult_json r), db')
      | (Err e, db') => (http_exception_handler e, db')
      end
  end.

(** [POST /api/reflections], on a body that passed the schema. *)
Definition route_submit_reflection (payload : Reflection) (db : Store)
    : Response * Store :=
  match submit_reflection create_document ObjectId payload db with
  | (Ok inserted_id, db') => (JSONResponse 200 (inserted_json inserted_id), db')
  | (Err e, db') => (http_exception_handler e, db')
  end.

End Routes.

(** ** Two document stores to run the handlers on *)

(** A store that keeps what it is given and numbers the documents. *)
Definition list_store : Type := list (string * Document).

Definition id_of_nat (n : nat) : string :=
  String (ascii_of_nat (48 + n mod 10)) EmptyString.

Definition insert_ok (collection : string) (doc : Document) (db : list_store)
    : result Exception string * list_store :=
  (Ok (id_of_nat (length db)), db ++ [(collection, doc)]).

(** A store that is down: every insert raises. *)
Definition insert_fails (collection : string) (doc : Document) (db : list_store)
    : result Exception string * list_store :=
  (Err (mkException "Database not available"), db).

(** An [int] validator that takes JSON integers only. *)
Definition int_only (j : json) : option Z :=
  match j with
  | JInt z => Some z
  | _ => None
  end.

(** The integer that the float [m * 2^e] is, if it is one. *)
Definition float_integral (m e : Z) : option Z :=
  if (0 <=? e)%Z then Some (m * 2 ^ e)%Z
  else if (m mod 2 ^ (- e) =? 0)%Z then Some (m / 2 ^ (- e))%Z
  else None.

(** The [int] validator of the schema library in its default mode, on
    numbers: an [int] is taken as it is, a [float] when its value is an
    integer within 64 bits, and a [float] with a fractional part is
    refused.  What it makes of a value that is no number is left to
    [coerce_other]. *)
Definition lax_int (coerce_other : json -> option Z) (j : json) : option Z :=
  match j with
  | JInt z => Some z
  | JFloat m e =>
      z ← float_integral m e;
      if (- 2 ^ 63 <? z)%Z && (z <? 2 ^ 63)%Z then Some z else None
  | _ => coerce_other j
  end.



Definition is_hex_digit (c : ascii) : bool :=
  let n := nat_of_ascii c in
  ((48 <=? n)%nat && (n <=? 57)%nat)
  || ((65 <=? n)%nat && (n <=? 70)%nat)
  || ((97 <=? n)%nat && (n <=? 102)%nat).

(** Modelled from the spec: [bson.ObjectId] is not part of the sources; section
    4.3 describes the identifier as a token of 24 hexadecimal characters. *)
Definition hex24_ObjectId (s : string) : result Exception string :=
  if (String.length s =? 24)%nat && forallb is_hex_digit (list_ascii_of_string s)
  then Ok s
  else Err (mkException "not a valid ObjectId").

(** ** schemas.py: the worksheet and reflection schemas as validators *)

Section SchemaValidation.

Variable validate_int : json -> option Z.

(** A field with a default: the default when the key is missing, the
    validated value otherwise. *)
Definition validate_default {A : Type} (v : json -> option A) (default : A)
    (field : option json) : option A :=
  match field with
  | None => Some default
  | Some j => v j
  end.

(** [List[T]]: an array whose elements all validate. *)
Definition validate_list {A : Type} (v : json -> option A) (j : json)
    : option (list A) :=
  match j with
  | JArr l => mapM v l
  | _ => None
  end.

(** An [int] field with [ge=lo, le=hi]. *)
Definition validate_int_range (lo hi : Z) (j : json) : option Z :=
  z ← validate_int j;
  if (lo <=? z)%Z && (z <=? hi)%Z then Some z else None.

Definition WorksheetAnswer_validate (body : json) : option WorksheetAnswer :=
  match body with
  | JObj fields =>
      question_id ← dict_lookup fields "question_id" ≫= validate_str;
      answer_text ← dict_lookup fields "answer_text" ≫= validate_str;
      Some (mkWorksheetAnswer question_id answer_text)
  | _ => None
  end.

Definition Worksheet_validate (body : json) : option Worksheet :=
  match body with
  | JObj fields =>
      student_name ← dict_lookup fields "student_name" ≫= validate_str;
      class_name ← dict_lookup fields "class_name" ≫= validate_str;
      topic ← validate_default validate_str "Computer Network Topologies"
                (dict_lookup fields "topic");
      answers ← validate_default (validate_list WorksheetAnswer_validate) []
                  (dict_lookup fields "answers");
      Some (mkWorksheet student_name class_name topic answers)
  | _ => None
  end.

Definition Reflection_validate (body : json) : option Reflection :=
  match body with
  | JObj fields =>
      worksheet_id ← dict_lookup fields "worksheet_id" ≫= validate_str;
      student_name ← dict_lookup fields "student_name" ≫= validate_str;
      understanding_level ←
        dict_lookup fields "understanding_level" ≫= validate_int_range 1 5;
      feelings ← validate_optional validate_str (dict_lookup fields "feelings");
      challenges ← validate_optional validate_str (dict_lookup fields "challenges");
      questions ← validate_optional validate_str (dict_lookup fields "questions");
      Some (mkReflection worksheet_id student_name understanding_level
              feelings challenges questions)
  | _ => None
  end.

End SchemaValidation.

(** ** main.py: the remaining endpoints *)

(** [GET /] *)
Definition read_root : json :=
  JObj [("message", JStr "Network Topology Learning Backend")].

(** A value of a stored document: [None], a [str], or anything else (an
    [ObjectId], a number, a timestamp, a list ...), of which only [str(v)]
    is ever asked. *)
Inductive pyval (A : Type) : Type :=
  | PyNone : pyval A
  | PyStr : string -> pyval A
  | PyOther : A -> pyval A.
Arguments PyNone {A}.
Arguments PyStr {A} _.
Arguments PyOther {A} _.

(** [d[k] = v]: an existing key keeps its place, a new one goes last. *)
Fixpoint dict_set {V : Type} (d : pydict V) (k : string) (v : V) : pydict V :=
  match d with
  | [] => [(k, v)]
  | (k', v') :: d' =>
      if String.eqb k' k then (k', v) :: d' else (k', v') :: dict_set d' k v
  end.

Section Worksheets.

Context {Store A : Type}.
Variable str_other : A -> string.

(** [str(v)] *)
Definition py_str (v : pyval A) : string :=
  match v with
  | PyNone => "None"
  | PyStr s => s
  | PyOther a => str_other a
  end.

(** The body of the loop of [list_worksheets]:
    [d["_id"] = str(d["_id"]) if "_id" in d else None]. *)
Definition stringify_id (d : pydict (pyval A)) : pydict (pyval A) :=
  dict_set d "_id"
    match dict_lookup d "_id" with
    | Some v => PyStr (py_str v)
    | None => PyNone
    end.

(** [database.get_documents(collection)] reads the store: it returns the
    documents of the collection, each a dict of its own, or raises. *)
Variable get_documents :
  string -> Store -> result Exception (list (pydict (pyval A))).

Definition list_worksheets (db : Store)
    : result HTTPException (list (pydict (pyval A))) :=
  match get_documents (collection_name cls_Worksheet) db with
  | Ok docs => Ok (map stringify_id docs)
  | Err e => Err (mkHTTPException 500 (str_exc e))
  end.

End Worksheets.

Section BodyRoutes.

Context {Store oid : Type}.
Variable create_document :
  string -> Document -> Store -> result Exception string * Store.
Variable ObjectId : string -> result Exception oid.
Variable validate_int : json -> option Z.

(** [POST /api/worksheets] *)
Definition route_post_worksheets (body : json) (db : Store) : Response * Store :=
  match Worksheet_validate body with
  | None => (RequestValidationError, db)
  | Some payload =>
      match submit_worksheet create_document payload db with
      | (Ok inserted_id, db') => (JSONResponse 200 (inserted_json inserted_id), db')
      | (Err e, db') => (http_exception_handler e, db')
      end
  end.

(** [POST /api/reflections], from the raw body. *)
Definition route_post_reflections (body : json) (db : Store) : Response * Store :=
  match Reflection_validate validate_int body with
  | None => (RequestValidationError, db)
  | Some payload => route_submit_reflection create_document ObjectId payload db
  end.

End BodyRoutes.

(** The status a response goes out with. *)
Definition response_status (r : Response) : Z :=
  match r with
  | JSONResponse status _ => status
  | RequestValidationError => 422
  end.

(** ** main.py: the diagnostic endpoint *)

(** The [db] object of the [database] module, as far as [test_database]
    looks at it: its [name] attribute, if it has one, and what
    [list_collection_names()] does. *)
Record Database : Type := mkDatabase {
  db_name : option string;
  list_collection_names : result Exception (list string)
}.

(** The [response] dict of [test_database]. *)
Record TestResponse : Type := mkTestResponse {
  t_backend : string;
  t_database : string;
  t_database_url : option string;
  t_database_name : option string;
  t_connection_status : string;
  t_collections : list string
}.

Definition set_database (r : TestResponse) (v : string) : TestResponse :=
  mkTestResponse (t_backend r) v (t_database_url r) (t_database_name r)
    (t_connection_status r) (t_collections r).

Definition set_database_url (r : TestResponse) (v : option string) : TestResponse :=
  mkTestResponse (t_backend r) (t_database r) v (t_database_name r)
    (t_connection_status r) (t_collections r).

Definition set_database_name (r : TestResponse) (v : option string) : TestResponse :=
  mkTestResponse (t_backend r) (t_database r) (t_database_url r) v
    (t_connection_status r) (t_collections r).

Definition set_connection_status (r : TestResponse) (v : string) : TestResponse :=
  mkTestResponse (t_backend r) (t_database r) (t_database_url r) (t_database_name r)
    v (t_collections r).

Definition set_collections (r : TestResponse) (v : list string) : TestResponse :=
  mkTestResponse (t_backend r) (t_database r) (t_database_url r) (t_database_name r)
    (t_connection_status r) v.

(** The text of a [str] is held as its UTF-8 bytes: a character is a byte
    that is no continuation byte, with the continuation bytes after it. *)
Definition is_continuation (c : ascii) : bool :=
  let n := nat_of_ascii c in (128 <=? n)%nat && (n <? 192)%nat.


(** [s[:n]]: the first [n] characters of [s]. *)
Fixpoint utf8_take (n : nat) (s : string) : string :=
  match s with
  | EmptyString => EmptyString
  | String c s' =>
      if is_continuation c then String c (utf8_take n s')
      else match n with
           | O => EmptyString
           | S n' => String c (utf8_take n' s')
           end
  end.

(** Truth value of [os.getenv(k)]: set, and not to the empty string. *)
Definition env_truthy (v : option string) : bool :=
  match v with
  | None | Some EmptyString => false
  | Some _ => true
  end.

(** [test_database()], on the module's [db] and the process environment.
    Nothing in the outer [try] raises past the inner one, so the outer
    handler has no turn. *)
Definition test_database (db : option Database) (getenv : string -> option string)
    : TestResponse :=
  let response :=
    {| t_backend := "✅ Running";
       t_database := "❌ Not Available";
       t_database_url := None;
       t_database_name := None;
       t_connection_status := "Not Connected";
       t_collections := [] |} in
  let response :=
    match db with
    | Some d =>
        let response := set_database response "✅ Available" in
        let response := set_database_url response (Some "✅ Configured") in
        let response :=
          set_database_name response
            (Some match db_name d with
                  | Some n => n
                  | None => "✅ Connected"
                  end) in
        let response := set_connection_status response "Connected" in
        match list_collection_names d with
        | Ok collections =>
            let response := set_collections response (take 10 collections) in
            set_database response "✅ Connected & Working"
        | Err e =>
            set_database response
              (String.append "⚠️  Connected but Error: " (utf8_take 50 (str_exc e)))
        end
    | None => set_database response "⚠️  Available but not initialized"
    end in
  let response :=
    set_database_url response
      (Some (if env_truthy (getenv "DATABASE_URL") then "✅ Set" else "❌ Not Set")) in
  let response :=
    set_database_name response
      (Some (if env_truthy (getenv "DATABASE_NAME") then "✅ Set" else "❌ Not Set")) in
  response.

(** * Properties *)

Example collection_name_Reflection : collection_name cls_Reflection = "reflection".
Proof. reflexivity. Qed.

Example bank_lookup : QUIZ_BANK !! "network-topologies" = Some network_topologies.
Proof. reflexivity. Qed.

(** The bank has one key. *)
Lemma bank_lookup_Some quiz_key data :
  QUIZ_BANK !! quiz_key = Some data ->
  quiz_key = "network-topologies" /\ data = network_topologies.
Proof.
  unfold QUIZ_BANK. intros H.
  apply lookup_singleton_Some in H. destruct H; auto.
Qed.

(** ** Dictionaries *)

Section Dict.
Context {V : Type}.
Implicit Types (d : pydict V) (k : string) (v : V).

Lemma dict_get_lookup d k v :
  dict_get d k v = default v (dict_lookup d k).
Proof.
  induction d as [|[k' v'] d IH]; simpl; [done|].
  destruct (String.eqb k' k); auto.
Qed.

Lemma dict_lookup_None d k :
  dict_lookup d k = None <-> k ∉ dict_keys d.
Proof.
  induction d as [|[k' v'] d IH]; simpl.
  - split; [intros _; apply not_elem_of_nil | done].
  - rewrite not_elem_of_cons.
    destruct (String.eqb_spec k' k) as [->|Hne]; split.
    + discriminate.
    + intros [Hk _]. by destruct Hk.
    + intros Hd. split; [congruence | by apply IH].
    + intros [_ Hd]. by apply IH.
Qed.

Lemma dict_lookup_Some d k v :
  dict_wf d -> dict_lookup d k = Some v <-> (k, v) ∈ d.
Proof.
  unfold dict_wf.
  induction d as [|[k' v'] d IH]; simpl; intros Hwf.
  - split; [discriminate | intros H; by apply elem_of_nil in H].
  - apply NoDup_cons in Hwf as [Hk' Hwf].
    rewrite elem_of_cons.
    destruct (String.eqb_spec k' k) as [->|Hne]; split.
    + intros [= ->]. by left.
    + intros [[= ->]|Hin]; [done|].
      exfalso. apply Hk'. unfold dict_keys.
      apply list_elem_of_fmap. by exists (k, v).
    + intros Hd. right. by apply IH.
    + intros [[= -> ->]|Hin]; [done | by apply IH].
Qed.

Lemma dict_wf_Permutation d d' : d ≡ₚ d' -> dict_wf d -> dict_wf d'.
Proof.
  unfold dict_wf, dict_keys. intros Hp. by rewrite Hp.
Qed.

(** Reading a key does not depend on the order of the items. *)
Lemma dict_lookup_Permutation d d' k :
  dict_wf d -> d ≡ₚ d' -> dict_lookup d k = dict_lookup d' k.
Proof.
  intros Hwf Hp.
  assert (Hwf' : dict_wf d') by eauto using dict_wf_Permutation.
  destruct (dict_lookup d k) as [v|] eqn:Hd.
  - symmetry. apply dict_lookup_Some; [done|].
    rewrite <- Hp. by apply dict_lookup_Some.
  - symmetry. apply dict_lookup_None.
    apply dict_lookup_None in Hd.
    unfold dict_keys in *. by rewrite <- Hp.
Qed.

Lemma dict_get_Permutation d d' k v :
  dict_wf d -> d ≡ₚ d' -> dict_get d k v = dict_get d' k v.
Proof.
  intros. rewrite !dict_get_lookup.
  by erewrite dict_lookup_Permutation.
Qed.
End Dict.

(** ** The grading loop *)

Section Loop.
Variable answers : pydict Z.

Lemma submit_quiz_step_eq correct details q :
  submit_quiz_step answers (correct, details) q =
  ((if d_is_correct (detail_of answers q) then correct + 1 else correct)%Z,
   details ++ [detail_of answers q]).
Proof. reflexivity. Qed.

Lemma count_correct_cons d ds :
  count_correct (d :: ds) =
  ((if d_is_correct d then 1 else 0) + count_correct ds)%Z.
Proof.
  unfold count_correct. simpl. destruct (d_is_correct d); simpl; lia.
Qed.

(** The loop from any accumulator: the counter grows by the number of
    correct entries, the list by one entry per question, in order. *)
Lemma fold_submit_quiz_step qs : forall correct details,
  fold_left (submit_quiz_step answers) qs (correct, details) =
  ((correct + count_correct (map (detail_of answers) qs))%Z,
   details ++ map (detail_of answers) qs).
Proof.
  induction qs as [|q qs IH]; intros correct details.
  - simpl. unfold count_correct. simpl.
    by rewrite Z.add_0_r, app_nil_r.
  - cbn [fold_left map]. rewrite submit_quiz_step_eq, IH.
    rewrite count_correct_cons, <- app_assoc.
    f_equal. destruct (d_is_correct (detail_of answers q)); lia.
Qed.

Lemma submit_quiz_loop_eq qs :
  submit_quiz_loop answers qs =
  (count_correct (map (detail_of answers) qs), map (detail_of answers) qs).
Proof.
  unfold submit_quiz_loop. by rewrite fold_submit_quiz_step.
Qed.
End Loop.

(** Two answer maps that agree on the question ids give the same entries. *)
Lemma detail_of_ext a1 a2 qs :
  Forall (fun q => dict_lookup a1 (bq_id q) = dict_lookup a2 (bq_id q)) qs ->
  map (detail_of a1) qs = map (detail_of a2) qs.
Proof.
  induction 1 as [|q qs Hq _ IH]; simpl; [done|].
  rewrite IH. f_equal.
  unfold detail_of. by rewrite !dict_get_lookup, Hq.
Qed.

(** ** The submit handler on a known key *)

Section Submit.
Context {Store : Type}.
Variable create_document :
  string -> Document -> Store -> result Exception string * Store.

(** On a known key the handler returns the graded result and leaves the
    store as [create_document] left it, whatever the insert did. *)
Lemma submit_quiz_known quiz_key data payload db :
  QUIZ_BANK !! quiz_key = Some data ->
  submit_quiz create_document quiz_key payload db =
  (Ok (graded quiz_key data payload),
   (create_document "quizsubmission"
      (DocQuizResult (graded quiz_key data payload)) db).2).
Proof.
  intros Hk. unfold submit_quiz. rewrite Hk, submit_quiz_loop_eq.
  fold (graded quiz_key data payload).
  by destruct (create_document _ _ db) as [[?|?] ?].
Qed.

Lemma submit_quiz_unknown quiz_key payload db :
  QUIZ_BANK !! quiz_key = None ->
  submit_quiz create_document quiz_key payload db =
  (Err (mkHTTPException 404 "Quiz not found"), db).
Proof. intros Hk. unfold submit_quiz. by rewrite Hk. Qed.
End Submit.

(** ** The result of a submission *)

Lemma graded_details_Forall2 quiz_key data payload :
  Forall2
    (fun q d =>
       d_id d = bq_id q /\ d_question d = bq_question q /\
       d_correct_answer d = bq_answer q /\
       d_selected d = dict_get (answers payload) (bq_id q) (-1)%Z /\
       d_is_correct d = (d_selected d =? bq_answer q)%Z)
    (bank_questions data) (r_details (graded quiz_key data payload)).
Proof.
  simpl. induction (bank_questions data) as [|q qs IH]; simpl.
  - constructor.
  - constructor; [|exact IH]. by repeat split.
Qed.

Lemma graded_Permutation quiz_key data payload answers' :
  dict_wf (answers payload) ->
  Permutation (answers payload) answers' ->
  graded quiz_key data (with_answers payload answers') = graded quiz_key data payload.
Proof.
  intros Hwf Hp. unfold graded, with_answers. simpl.
  assert (Hm : map (detail_of answers') (bank_questions data) =
               map (detail_of (answers payload)) (bank_questions data)).
  { apply detail_of_ext, Forall_forall. intros q _.
    symmetry. by apply dict_lookup_Permutation. }
  by rewrite Hm.
Qed.

(** C1: for a submission against a known quiz key the returned result has
    [score] equal to the number of [details] entries with [is_correct] true,
    [total] equal to the number of questions of the quiz definition, and
    [details] with exactly one entry per question, in the definition's order;
    submitting the same answers with the keys of the map in another order
    returns the same result. *)
Theorem submit_quiz_result_invariant {Store : Type}
    (create_document : string -> Document -> Store -> result Exception string * Store)
    (quiz_key : string) (data : BankQuiz) (payload : QuizSubmission) (db : Store) :
  QUIZ_BANK !! quiz_key = Some data ->
  dict_wf (answers payload) ->
  exists r : QuizResult,
    (submit_quiz create_document quiz_key payload db).1 = Ok r /\
    r_score r = Z.of_nat (length (List.filter d_is_correct (r_details r))) /\
    r_total r = Z.of_nat (length (bank_questions data)) /\
    Forall2
      (fun q d =>
         d_id d = bq_id q /\ d_question d = bq_question q /\
         d_correct_answer d = bq_answer q /\
         d_selected d = dict_get (answers payload) (bq_id q) (-1)%Z /\
         d_is_correct d = (d_selected d =? bq_answer q)%Z)
      (bank_questions data) (r_details r) /\
    forall answers' : pydict Z,
      Permutation (answers payload) answers' ->
      (submit_quiz create_document quiz_key (with_answers payload answers') db).1 = Ok r.
Proof.
  intros Hk Hwf. exists (graded quiz_key data payload).
  split; [by rewrite (submit_quiz_known _ _ data)|].
  split; [reflexivity|]. split; [reflexivity|].
  split; [apply graded_details_Forall2|].
  intros answers' Hp.
  rewrite (submit_quiz_known _ _ data) by done. simpl.
  by rewrite graded_Permutation.
Qed.

Lemma submit_quiz_result_invariant_witness :
  QUIZ_BANK !! "network-topologies" = Some network_topologies /\
  dict_wf [("q3", 1%Z); ("q1", 1%Z); ("q2", 0%Z)] /\
  exists r : QuizResult,
    (submit_quiz insert_ok "network-topologies"
       (mkQuizSubmission None "network-topologies"
          [("q3", 1%Z); ("q1", 1%Z); ("q2", 0%Z)] None None None) []).1 = Ok r /\
    r_score r = Z.of_nat (length (List.filter d_is_correct (r_details r))) /\
    r_total r = 6%Z /\
    map d_id (r_details r) = ["q1"; "q2"; "q3"; "q4"; "q5"; "q6"].
Proof.
  assert (Hk : QUIZ_BANK !! "network-topologies" = Some network_topologies)
    by reflexivity.
  assert (Hwf : dict_wf [("q3", 1%Z); ("q1", 1%Z); ("q2", 0%Z)]).
  { unfold dict_wf. simpl. apply (bool_decide_unpack _). vm_compute. exact I. }
  split; [exact Hk|]. split; [exact Hwf|].
  destruct (submit_quiz_result_invariant insert_ok "network-topologies"
              network_topologies
              (mkQuizSubmission None "network-topologies"
                 [("q3", 1%Z); ("q1", 1%Z); ("q2", 0%Z)] None None None) [] Hk Hwf)
    as (r & Hr & Hscore & Htotal & Hdetails & _).
  exists r. split; [exact Hr|]. split; [exact Hscore|]. split; [exact Htotal|].
  simpl in Hr. injection Hr as <-. reflexivity.
Defined.

(** C2: submitting the answers [{"q1": 1, "q2": 0, "q3": 1}] to the
    [network-topologies] quiz gives score 2 and total 6, and the [details]
    entry for [q3] has [is_correct] false, [selected] 1 and [correct_answer]
    0; the other fields of the payload, the store and the outcome of the
    insert play no part. *)
Theorem submit_quiz_scenario {Store : Type}
    (create_document : string -> Document -> Store -> result Exception string * Store)
    (name : option string) (body_key : string) (body_score body_total : option Z)
    (body_details : option (list (pydict json))) (db : Store) :
  exists r : QuizResult,
    (submit_quiz create_document "network-topologies"
       (mkQuizSubmission name body_key [("q1", 1%Z); ("q2", 0%Z); ("q3", 1%Z)]
          body_score body_total body_details) db).1 = Ok r /\
    r_score r = 2%Z /\
    r_total r = 6%Z /\
    (exists d : Detail,
       r_details r !! 2%nat = Some d /\ d_id d = "q3" /\
       d_is_correct d = false /\ d_selected d = 1%Z /\ d_correct_answer d = 0%Z) /\
    (forall d : Detail,
       In d (r_details r) -> d_id d = "q3" ->
       d_is_correct d = false /\ d_selected d = 1%Z /\ d_correct_answer d = 0%Z).
Proof.
  eexists. split.
  { by rewrite (submit_quiz_known _ _ network_topologies). }
  split; [reflexivity|]. split; [reflexivity|]. split.
  - eexists. split; [reflexivity|]. by repeat split.
  - intros d Hin Hid. simpl in Hin.
    repeat (destruct Hin as [<-|Hin]; [first [discriminate Hid | by repeat split]|]).
    destruct Hin.
Qed.

(** C3: for a quiz key that is not in the bank, fetching the quiz and
    submitting to it both fail with status 404 and the body
    [{"detail": "Quiz not found"}]; on submit the failure is the same for
    every payload and every store, and the store is left untouched whatever
    an insert would have done. *)
Theorem unknown_quiz_key_not_found {Store : Type}
    (create_document : string -> Document -> Store -> result Exception string * Store)
    (validate_int : json -> option Z)
    (quiz_key : string) (payload : QuizSubmission) (db : Store) :
  QUIZ_BANK !! quiz_key = None ->
  get_quiz quiz_key = Err (mkHTTPException 404 "Quiz not found") /\
  route_get_quiz quiz_key =
    JSONResponse 404 (JObj [("detail", JStr "Quiz not found")]) /\
  submit_quiz create_document quiz_key payload db =
    (Err (mkHTTPException 404 "Quiz not found"), db) /\
  (forall body : json,
     QuizSubmission_validate validate_int body = Some payload ->
     route_submit_quiz create_document validate_int quiz_key body db =
       (JSONResponse 404 (JObj [("detail", JStr "Quiz not found")]), db)).
Proof.
  intros Hk.
  assert (Hget : get_quiz quiz_key = Err (mkHTTPException 404 "Quiz not found")).
  { unfold get_quiz. by rewrite Hk. }
  split; [exact Hget|]. split.
  { unfold route_get_quiz. by rewrite Hget. }
  split; [by apply submit_quiz_unknown|].
  intros body Hbody. unfold route_submit_quiz.
  by rewrite Hbody, submit_quiz_unknown.
Qed.

Lemma unknown_quiz_key_not_found_witness :
  QUIZ_BANK !! "network-topology" = None /\
  submit_quiz insert_ok "network-topology"
    (mkQuizSubmission (Some "Ada") "network-topology" [("q1", 1%Z)] None None None) [] =
    (Err (mkHTTPException 404 "Quiz not found"), []) /\
  route_get_quiz "network-topology" =
    JSONResponse 404 (JObj [("detail", JStr "Quiz not found")]).
Proof.
  assert (Hk : QUIZ_BANK !! "network-topology" = None) by reflexivity.
  split; [exact Hk|].
  destruct (unknown_quiz_key_not_found insert_ok int_only "network-topology"
              (mkQuizSubmission (Some "Ada") "network-topology" [("q1", 1%Z)]
                 None None None) [] Hk)
    as (_ & Hroute & Hsubmit & _).
  split; [exact Hsubmit | exact Hroute].
Defined.

(** ** The question-fetch endpoint *)

(** The encoder of a question writes the three fields of the schema. *)
Lemma QuizQuestion_json_no_answer q :
  json_field (QuizQuestion_json q) "answer" = None.
Proof. reflexivity. Qed.

(** C5: [GET /api/quizzes/network-topologies] answers 200 with a quiz
    definition of exactly 6 questions, [q1] to [q6], and no question object
    of the response has an [answer] field; the latter holds for the response
    to every quiz key. *)
Theorem get_quiz_hides_answers :
  (exists qs : list json,
     route_get_quiz "network-topologies" =
       JSONResponse 200
         (JObj [("title", JStr "Computer Network Topologies");
                ("questions", JArr qs)]) /\
     length qs = 6%nat /\
     map (fun q => json_field q "id") qs =
       map (fun i => Some (JStr i)) ["q1"; "q2"; "q3"; "q4"; "q5"; "q6"] /\
     Forall (fun q => json_field q "answer" = None) qs) /\
  (forall (quiz_key : string) (status : Z) (body : json) (qs : list json),
     route_get_quiz quiz_key = JSONResponse status body ->
     json_field body "questions" = Some (JArr qs) ->
     Forall (fun q => json_field q "answer" = None) qs).
Proof.
  split.
  - eexists. split; [reflexivity|]. split; [reflexivity|].
    split; [reflexivity|]. repeat constructor.
  - intros quiz_key status body qs. unfold route_get_quiz, get_quiz.
    destruct (QUIZ_BANK !! quiz_key) as [data|]; simpl.
    + intros [= _ <-]. simpl. intros [= <-].
      apply Forall_forall. intros j Hj.
      apply list_elem_of_fmap in Hj as (q & -> & _).
      apply QuizQuestion_json_no_answer.
    + intros [= _ <-]. discriminate.
Qed.

(** ** Unanswered questions *)

(** Every stored answer of the bank is an index into its options. *)
Lemma bank_answers_are_indices quiz_key data :
  QUIZ_BANK !! quiz_key = Some data ->
  Forall (fun q => (0 <= bq_answer q < Z.of_nat (length (bq_options q)))%Z)
         (bank_questions data).
Proof.
  intros Hk. apply bank_lookup_Some in Hk as [_ ->].
  simpl. repeat constructor; simpl; lia.
Qed.

(** With no answers at all, every entry carries the default -1 and, when
    the stored answers are not negative, none is correct. *)
Lemma detail_of_empty qs :
  Forall (fun q => (0 <= bq_answer q)%Z) qs ->
  Forall (fun d => d_selected d = (-1)%Z /\ d_is_correct d = false)
         (map (detail_of []) qs) /\
  count_correct (map (detail_of []) qs) = 0%Z.
Proof.
  induction 1 as [|q qs Hq _ [IHd IHc]]; simpl.
  - split; [constructor | reflexivity].
  - assert (Hc : d_is_correct (detail_of [] q) = false).
    { unfold detail_of, py_int. cbn [d_is_correct dict_get].
      apply Z.eqb_neq. lia. }
    split.
    + constructor; [by split | exact IHd].
    + rewrite count_correct_cons, Hc, IHc. reflexivity.
Qed.

(** C6: a submission with an empty answer map against a known quiz key
    returns score 0, and every [details] entry, one per question, has
    [selected] equal to -1 and is not correct: -1 differs from the stored
    answer of every question. *)
Theorem submit_quiz_empty_answers {Store : Type}
    (create_document : string -> Document -> Store -> result Exception string * Store)
    (quiz_key : string) (data : BankQuiz) (payload : QuizSubmission) (db : Store) :
  QUIZ_BANK !! quiz_key = Some data ->
  answers payload = [] ->
  exists r : QuizResult,
    (submit_quiz create_document quiz_key payload db).1 = Ok r /\
    r_score r = 0%Z /\
    length (r_details r) = length (bank_questions data) /\
    Forall (fun d => d_selected d = (-1)%Z /\ d_is_correct d = false) (r_details r) /\
    Forall (fun q => py_int (-1) <> py_int (bq_answer q)) (bank_questions data).
Proof.
  intros Hk Hempty.
  pose proof (bank_answers_are_indices _ _ Hk) as Hidx.
  assert (Hnn : Forall (fun q => (0 <= bq_answer q)%Z) (bank_questions data)).
  { eapply Forall_impl; [exact Hidx|]. simpl. intros q [? _]. done. }
  destruct (detail_of_empty _ Hnn) as [Hd Hc].
  exists (graded quiz_key data payload).
  split; [by rewrite (submit_quiz_known _ _ data)|].
  unfold graded. simpl. rewrite Hempty.
  split; [exact Hc|]. split; [by rewrite length_map|]. split; [exact Hd|].
  eapply Forall_impl; [exact Hnn|]. simpl. unfold py_int. intros q ?. lia.
Qed.

Lemma submit_quiz_empty_answers_witness :
  QUIZ_BANK !! "network-topologies" = Some network_topologies /\
  answers (mkQuizSubmission (Some "Ada") "network-topologies" [] None None None) = [] /\
  exists r : QuizResult,
    (submit_quiz insert_ok "network-topologies"
       (mkQuizSubmission (Some "Ada") "network-topologies" [] None None None) []).1 = Ok r /\
    r_score r = 0%Z /\
    map d_selected (r_details r) = [-1; -1; -1; -1; -1; -1]%Z.
Proof.
  assert (Hk : QUIZ_BANK !! "network-topologies" = Some network_topologies)
    by reflexivity.
  split; [exact Hk|]. split; [reflexivity|].
  destruct (submit_quiz_empty_answers insert_ok "network-topologies"
              network_topologies
              (mkQuizSubmission (Some "Ada") "network-topologies" [] None None None)
              [] Hk eq_refl)
    as (r & Hr & Hscore & _).
  exists r. split; [exact Hr|]. split; [exact Hscore|].
  simpl in Hr. injection Hr as <-. reflexivity.
Defined.

(** ** Keys of the answer map that are no question ids *)

(** C7: two submissions to the same known quiz key whose answer maps agree
    on every question id of the quiz, and so differ at most in entries under
    other keys, get the same score, total and details; total is the number
    of questions of the definition. *)
Theorem submit_quiz_ignores_extra_keys {Store : Type}
    (create_document : string -> Document -> Store -> result Exception string * Store)
    (quiz_key : string) (data : BankQuiz) (p1 p2 : QuizSubmission) (db1 db2 : Store) :
  QUIZ_BANK !! quiz_key = Some data ->
  Forall (fun q => dict_lookup (answers p1) (bq_id q) = dict_lookup (answers p2) (bq_id q))
         (bank_questions data) ->
  exists r1 r2 : QuizResult,
    (submit_quiz create_document quiz_key p1 db1).1 = Ok r1 /\
    (submit_quiz create_document quiz_key p2 db2).1 = Ok r2 /\
    r_score r1 = r_score r2 /\
    r_total r1 = r_total r2 /\
    r_details r1 = r_details r2 /\
    r_total r1 = Z.of_nat (length (bank_questions data)).
Proof.
  intros Hk Hagree.
  exists (graded quiz_key data p1), (graded quiz_key data p2).
  rewrite !(submit_quiz_known _ _ data) by done.
  unfold graded. simpl. rewrite (detail_of_ext _ _ _ Hagree).
  by repeat split.
Qed.

Lemma submit_quiz_ignores_extra_keys_witness :
  QUIZ_BANK !! "network-topologies" = Some network_topologies /\
  exists r1 r2 : QuizResult,
    (submit_quiz insert_ok "network-topologies"
       (mkQuizSubmission None "network-topologies"
          [("q1", 1%Z); ("q5", 3%Z)] None None None) []).1 = Ok r1 /\
    (submit_quiz insert_ok "network-topologies"
       (mkQuizSubmission None "network-topologies"
          [("q9", 2%Z); ("q5", 3%Z); ("", 0%Z); ("q1", 1%Z); ("Q2", 0%Z)]
          None None None) []).1 = Ok r2 /\
    r_score r1 = r_score r2 /\
    r_total r1 = r_total r2 /\
    r_details r1 = r_details r2 /\
    r_total r1 = 6%Z.
Proof.
  assert (Hk : QUIZ_BANK !! "network-topologies" = Some network_topologies)
    by reflexivity.
  split; [exact Hk|].
  apply (submit_quiz_ignores_extra_keys insert_ok "network-topologies"
           network_topologies
           (mkQuizSubmission None "network-topologies"
              [("q1", 1%Z); ("q5", 3%Z)] None None None)
           (mkQuizSubmission None "network-topologies"
              [("q9", 2%Z); ("q5", 3%Z); ("", 0%Z); ("q1", 1%Z); ("Q2", 0%Z)]
              None None None) [] [] Hk).
  simpl. repeat constructor.
Defined.

(** ** Best-effort persistence *)

(** C8: on a known quiz key the result of a submission is returned whether
    the insert into the store succeeds or raises: one and the same result
    for every store, every behaviour of [create_document] and either
    outcome of the insert, always as a normal return answered with status
    200, never as an exception. *)
Theorem submit_quiz_persistence_best_effort
    (quiz_key : string) (data : BankQuiz) (payload : QuizSubmission) :
  QUIZ_BANK !! quiz_key = Some data ->
  exists r : QuizResult,
    forall (Store : Type)
           (create_document : string -> Document -> Store -> result Exception string * Store)
           (db : Store),
      (submit_quiz create_document quiz_key payload db).1 = Ok r /\
      (forall (inserted_id : string) (db' : Store),
         create_document "quizsubmission" (DocQuizResult r) db = (Ok inserted_id, db') ->
         submit_quiz create_document quiz_key payload db = (Ok r, db')) /\
      (forall (e : Exception) (db' : Store),
         create_document "quizsubmission" (DocQuizResult r) db = (Err e, db') ->
         submit_quiz create_document quiz_key payload db = (Ok r, db')) /\
      (forall (validate_int : json -> option Z) (body : json),
         QuizSubmission_validate validate_int body = Some payload ->
         (route_submit_quiz create_document validate_int quiz_key body db).1 =
           JSONResponse 200 (QuizResult_json r)).
Proof.
  intros Hk. exists (graded quiz_key data payload).
  intros Store create_document db.
  pose proof (submit_quiz_known create_document _ _ payload db Hk) as Hs.
  split; [by rewrite Hs|]. split; [|split].
  - intros inserted_id db' Hins. by rewrite Hs, Hins.
  - intros e db' Hins. by rewrite Hs, Hins.
  - intros validate_int body Hbody. unfold route_submit_quiz.
    by rewrite Hbody, Hs.
Qed.

Lemma submit_quiz_persistence_best_effort_witness :
  QUIZ_BANK !! "network-topologies" = Some network_topologies /\
  exists r : QuizResult,
    submit_quiz insert_ok "network-topologies"
      (mkQuizSubmission (Some "Ada") "network-topologies"
         [("q1", 1%Z); ("q6", 2%Z)] None None None) [] =
      (Ok r, [("quizsubmission", DocQuizResult r)]) /\
    submit_quiz insert_fails "network-topologies"
      (mkQuizSubmission (Some "Ada") "network-topologies"
         [("q1", 1%Z); ("q6", 2%Z)] None None None) [] =
      (Ok r, []) /\
    r_score r = 2%Z.
Proof.
  assert (Hk : QUIZ_BANK !! "network-topologies" = Some network_topologies)
    by reflexivity.
  split; [exact Hk|].
  destruct (submit_quiz_persistence_best_effort "network-topologies"
              network_topologies
              (mkQuizSubmission (Some "Ada") "network-topologies"
                 [("q1", 1%Z); ("q6", 2%Z)] None None None) Hk)
    as (r & Hr).
  exists r.
  destruct (Hr list_store insert_ok []) as (Hret & Hok & _ & _).
  destruct (Hr list_store insert_fails []) as (_ & _ & Hfail & _).
  split; [|split].
  - apply (Hok "0"). reflexivity.
  - apply (Hfail (mkException "Database not available")). reflexivity.
  - simpl in Hret. injection Hret as <-. reflexivity.
Defined.

(** ** Reflections *)

(** C9: a reflection whose [worksheet_id] is rejected by [ObjectId] fails
    with status 400 and the body [{"detail": "Invalid worksheet_id"}],
    the store untouched whatever an insert would have done; with an accepted
    id, an insert that raises gives status 500 with the text of the raised
    exception as [detail]. *)
Theorem submit_reflection_invalid_worksheet_id {Store oid : Type}
    (create_document : string -> Document -> Store -> result Exception string * Store)
    (ObjectId : string -> result Exception oid)
    (payload : Reflection) (db : Store) (bad : Exception) :
  ObjectId (worksheet_id payload) = Err bad ->
  submit_reflection create_document ObjectId payload db =
    (Err (mkHTTPException 400 "Invalid worksheet_id"), db) /\
  route_submit_reflection create_document ObjectId payload db =
    (JSONResponse 400 (JObj [("detail", JStr "Invalid worksheet_id")]), db) /\
  (forall (payload' : Reflection) (o : oid) (e : Exception) (db' : Store),
     ObjectId (worksheet_id payload') = Ok o ->
     create_document "reflection" (DocReflection payload') db = (Err e, db') ->
     submit_reflection create_document ObjectId payload' db =
       (Err (mkHTTPException 500 (str_exc e)), db') /\
     route_submit_reflection create_document ObjectId payload' db =
       (JSONResponse 500 (JObj [("detail", JStr (str_exc e))]), db')).
Proof.
  intros Hbad.
  assert (Hs : submit_reflection create_document ObjectId payload db =
               (Err (mkHTTPException 400 "Invalid worksheet_id"), db)).
  { unfold submit_reflection. by rewrite Hbad. }
  split; [exact Hs|]. split.
  { unfold route_submit_reflection. by rewrite Hs. }
  intros payload' o e db' Hid Hins.
  assert (Hs' : submit_reflection create_document ObjectId payload' db =
                (Err (mkHTTPException 500 (str_exc e)), db')).
  { unfold submit_reflection. rewrite Hid.
    change (collection_name cls_Reflection) with "reflection".
    by rewrite Hins. }
  split; [exact Hs'|].
  unfold route_submit_reflection. by rewrite Hs'.
Qed.

Lemma submit_reflection_invalid_worksheet_id_witness :
  hex24_ObjectId "not-an-id" = Err (mkException "not a valid ObjectId") /\
  route_submit_reflection insert_ok hex24_ObjectId
    (mkReflection "not-an-id" "Ada" 3 None None None) [] =
    (JSONResponse 400 (JObj [("detail", JStr "Invalid worksheet_id")]), []) /\
  route_submit_reflection insert_fails hex24_ObjectId
    (mkReflection "0123456789abcdef01234567" "Ada" 3 None None None) [] =
    (JSONResponse 500 (JObj [("detail", JStr "Database not available")]), []).
Proof.
  assert (Hbad : hex24_ObjectId "not-an-id" = Err (mkException "not a valid ObjectId"))
    by reflexivity.
  split; [exact Hbad|].
  split.
  - apply (submit_reflection_invalid_worksheet_id insert_ok hex24_ObjectId
             (mkReflection "not-an-id" "Ada" 3 None None None) [] _ Hbad).
  - destruct (submit_reflection_invalid_worksheet_id insert_fails hex24_ObjectId
                (mkReflection "not-an-id" "Ada" 3 None None None) [] _ Hbad)
      as (_ & _ & Hstore).
    apply (Hstore (mkReflection "0123456789abcdef01234567" "Ada" 3 None None None)
             "0123456789abcdef01234567" (mkException "Database not available") []);
      reflexivity.
Defined.

(** ** What the request body cannot influence *)

(** C10: on a known quiz key, the result that is returned and handed to the
    store carries the quiz key of the URL path, and two payloads that differ
    only in their [quiz_key], [score], [total] and [details] fields get the
    same result, hence the same score, total and details. *)
Theorem submit_quiz_ignores_body_fields {Store : Type}
    (create_document : string -> Document -> Store -> result Exception string * Store)
    (quiz_key : string) (data : BankQuiz) (p1 p2 : QuizSubmission) (db : Store) :
  QUIZ_BANK !! quiz_key = Some data ->
  student_name p1 = student_name p2 ->
  answers p1 = answers p2 ->
  exists r : QuizResult,
    r_quiz_key r = quiz_key /\
    submit_quiz create_document quiz_key p1 db =
      (Ok r, (create_document "quizsubmission" (DocQuizResult r) db).2) /\
    submit_quiz create_document quiz_key p2 db =
      (Ok r, (create_document "quizsubmission" (DocQuizResult r) db).2).
Proof.
  intros Hk Hname Hanswers. exists (graded quiz_key data p1).
  split; [reflexivity|].
  rewrite !(submit_quiz_known _ _ data) by done.
  split; [reflexivity|].
  unfold graded. by rewrite Hname, Hanswers.
Qed.

Lemma submit_quiz_ignores_body_fields_witness :
  QUIZ_BANK !! "network-topologies" = Some network_topologies /\
  exists r : QuizResult,
    r_quiz_key r = "network-topologies" /\
    submit_quiz insert_ok "network-topologies"
      (mkQuizSubmission (Some "Ada") "network-topologies"
         [("q1", 1%Z)] None None None) [] =
      (Ok r, [("quizsubmission", DocQuizResult r)]) /\
    submit_quiz insert_ok "network-topologies"
      (mkQuizSubmission (Some "Ada") "some-other-quiz"
         [("q1", 1%Z)] (Some 6%Z) (Some 6%Z) (Some [[("is_correct", JBool true)]])) [] =
      (Ok r, [("quizsubmission", DocQuizResult r)]).
Proof.
  assert (Hk : QUIZ_BANK !! "network-topologies" = Some network_topologies)
    by reflexivity.
  split; [exact Hk|].
  apply (submit_quiz_ignores_body_fields insert_ok "network-topologies"
           network_topologies
           (mkQuizSubmission (Some "Ada") "network-topologies"
              [("q1", 1%Z)] None None None)
           (mkQuizSubmission (Some "Ada") "some-other-quiz"
              [("q1", 1%Z)] (Some 6%Z) (Some 6%Z) (Some [[("is_correct", JBool true)]]))
           [] Hk eq_refl eq_refl).
Defined.

(** ** The request body of a submission *)

Section Body.
Variable validate_int : json -> option Z.


End Body.

Section LaxInt.
Variable coerce_other : json -> option Z.


Lemma lax_int_fraction m e :
  float_integral m e = None -> lax_int coerce_other (JFloat m e) = None.
Proof. intros Hm. simpl. by rewrite Hm. Qed.


End LaxInt.




(** * Further properties of the handlers *)

(** ** Helpers *)

Lemma submit_quiz_Ok_inv {Store : Type}
    (create_document : string -> Document -> Store -> result Exception string * Store)
    quiz_key payload db r :
  (submit_quiz create_document quiz_key payload db).1 = Ok r ->
  exists data, QUIZ_BANK !! quiz_key = Some data /\ r = graded quiz_key data payload.
Proof.
  destruct (QUIZ_BANK !! quiz_key) as [data|] eqn:Hk.
  - rewrite (submit_quiz_known _ _ data) by done. simpl.
    intros [= <-]. by exists data.
  - rewrite submit_quiz_unknown by done. discriminate.
Qed.

Lemma count_correct_bounds ds :
  (0 <= count_correct ds <= Z.of_nat (length ds))%Z.
Proof.
  unfold count_correct. split; [lia|].
  apply inj_le. induction ds as [|d ds IH]; simpl; [lia|].
  destruct (d_is_correct d); simpl; lia.
Qed.

Lemma count_correct_all ds :
  count_correct ds = Z.of_nat (length ds) <->
  Forall (fun d => d_is_correct d = true) ds.
Proof.
  induction ds as [|d ds IH].
  - split; [constructor | reflexivity].
  - rewrite count_correct_cons. pose proof (count_correct_bounds ds) as Hb.
    cbn [length]. rewrite Nat2Z.inj_succ. split.
    + intros Hc. destruct (d_is_correct d) eqn:Hd.
      * constructor; [done|]. apply IH. lia.
      * lia.
    + intros Hall. apply Forall_cons in Hall as [-> Hall].
      apply IH in Hall. lia.
Qed.

Section DictSet.
Context {V : Type}.
Implicit Types (d : pydict V) (k : string) (v : V).

Lemma dict_lookup_set_eq d k v : dict_lookup (dict_set d k v) k = Some v.
Proof.
  induction d as [|[k' v'] d IH]; simpl.
  - by rewrite String.eqb_refl.
  - destruct (String.eqb k' k) eqn:Hk; simpl; by rewrite Hk.
Qed.

Lemma dict_lookup_set_ne d k k' v :
  k <> k' -> dict_lookup (dict_set d k v) k' = dict_lookup d k'.
Proof.
  intros Hne. induction d as [|[k0 v0] d IH]; simpl.
  - by apply String.eqb_neq in Hne as ->.
  - destruct (String.eqb_spec k0 k) as [->|Hk0]; simpl.
    + by apply String.eqb_neq in Hne as ->.
    + by rewrite IH.
Qed.

Lemma dict_keys_set d k v :
  dict_keys (dict_set d k v) =
  match dict_lookup d k with
  | Some _ => dict_keys d
  | None => dict_keys d ++ [k]
  end.
Proof.
  induction d as [|[k0 v0] d IH]; simpl; [done|].
  destruct (String.eqb k0 k); simpl; [done|].
  rewrite IH. by destruct (dict_lookup d k).
Qed.

Lemma dict_wf_set d k v : dict_wf d -> dict_wf (dict_set d k v).
Proof.
  unfold dict_wf. rewrite dict_keys_set.
  destruct (dict_lookup d k) eqn:Hk; [done|].
  intros Hwf. apply NoDup_app. split; [done|]. split.
  - intros x Hx Hin. apply list_elem_of_singleton in Hin as ->.
    by apply dict_lookup_None in Hk.
  - apply NoDup_singleton.
Qed.
End DictSet.

(** ** Scores *)

(** X1: whenever [submit_quiz] returns a result, its score lies between 0
    and its total, [details] has [total] entries, and the score reaches
    the total exactly when every entry is marked correct. *)
Theorem submit_quiz_score_bounds {Store : Type}
    (create_document : string -> Document -> Store -> result Exception string * Store)
    (quiz_key : string) (payload : QuizSubmission) (db : Store) (r : QuizResult) :
  (submit_quiz create_document quiz_key payload db).1 = Ok r ->
  (0 <= r_score r <= r_total r)%Z /\
  r_total r = Z.of_nat (length (r_details r)) /\
  (r_score r = r_total r <-> Forall (fun d => d_is_correct d = true) (r_details r)).
Proof.
  intros Hr. apply submit_quiz_Ok_inv in Hr as (data & _ & ->).
  unfold graded. simpl.
  set (ds := map (detail_of (answers payload)) (bank_questions data)).
  assert (Hlen : Z.of_nat (length (bank_questions data)) = Z.of_nat (length ds)).
  { unfold ds. by rewrite length_map. }
  rewrite Hlen. split; [apply count_correct_bounds|].
  split; [reflexivity | apply count_correct_all].
Qed.

Lemma submit_quiz_score_bounds_witness :
  exists r : QuizResult,
    (submit_quiz insert_ok "network-topologies"
       (mkQuizSubmission None "network-topologies"
          [("q1", 1%Z); ("q2", 3%Z)] None None None) []).1 = Ok r /\
    (0 <= r_score r <= r_total r)%Z /\
    r_score r = 1%Z.
Proof.
  eexists. split; [reflexivity|].
  split; [|reflexivity].
  apply (submit_quiz_score_bounds insert_ok "network-topologies"
           (mkQuizSubmission None "network-topologies"
              [("q1", 1%Z); ("q2", 3%Z)] None None None) []).
  reflexivity.
Defined.

(** X2: on a known quiz key the score equals the total exactly when the
    answer map holds, for every question of the quiz, the stored correct
    answer under the question's id. *)
Theorem submit_quiz_full_score_iff {Store : Type}
    (create_document : string -> Document -> Store -> result Exception string * Store)
    (quiz_key : string) (data : BankQuiz) (payload : QuizSubmission) (db : Store) :
  QUIZ_BANK !! quiz_key = Some data ->
  exists r : QuizResult,
    (submit_quiz create_document quiz_key payload db).1 = Ok r /\
    (r_score r = r_total r <->
     Forall (fun q => dict_lookup (answers payload) (bq_id q) = Some (bq_answer q))
            (bank_questions data)).
Proof.
  intros Hk. exists (graded quiz_key data payload).
  split; [by rewrite (submit_quiz_known _ _ data)|].
  pose proof (bank_answers_are_indices _ _ Hk) as Hidx.
  unfold graded. simpl.
  rewrite <- (length_map (detail_of (answers payload)) (bank_questions data)).
  rewrite count_correct_all, Forall_map.
  induction Hidx as [|q qs [Hq _] _ IH].
  - split; constructor.
  - rewrite !Forall_cons, IH.
    assert (Hone : d_is_correct (detail_of (answers payload) q) = true <->
                   dict_lookup (answers payload) (bq_id q) = Some (bq_answer q)).
    { unfold detail_of, py_int. cbn [d_is_correct].
      rewrite dict_get_lookup, Z.eqb_eq.
      destruct (dict_lookup (answers payload) (bq_id q)) as [z|]; simpl.
      - split; [by intros -> | by intros [= ->]].
      - split; [lia | discriminate]. }
    by rewrite Hone.
Qed.

Lemma submit_quiz_full_score_iff_witness :
  QUIZ_BANK !! "network-topologies" = Some network_topologies /\
  exists r : QuizResult,
    (submit_quiz insert_ok "network-topologies"
       (mkQuizSubmission None "network-topologies"
          [("q6", 2%Z); ("q5", 1%Z); ("q4", 0%Z); ("q3", 0%Z); ("q2", 0%Z); ("q1", 1%Z)]
          None None None) []).1 = Ok r /\
    r_score r = 6%Z /\ r_total r = 6%Z.
Proof.
  assert (Hk : QUIZ_BANK !! "network-topologies" = Some network_topologies)
    by reflexivity.
  split; [exact Hk|].
  destruct (submit_quiz_full_score_iff insert_ok "network-topologies"
              network_topologies
              (mkQuizSubmission None "network-topologies"
                 [("q6", 2%Z); ("q5", 1%Z); ("q4", 0%Z); ("q3", 0%Z); ("q2", 0%Z); ("q1", 1%Z)]
                 None None None) [] Hk)
    as (r & Hr & _).
  exists r. split; [exact Hr|].
  simpl in Hr. injection Hr as <-. by split.
Defined.

(** X3: a selection that is not an index into the question's options, be it
    negative or past the last option, is graded as incorrect. *)
Theorem submit_quiz_out_of_range_incorrect {Store : Type}
    (create_document : string -> Document -> Store -> result Exception string * Store)
    (quiz_key : string) (data : BankQuiz) (payload : QuizSubmission) (db : Store) :
  QUIZ_BANK !! quiz_key = Some data ->
  exists r : QuizResult,
    (submit_quiz create_document quiz_key payload db).1 = Ok r /\
    Forall2
      (fun q d =>
         (d_selected d < 0 \/ Z.of_nat (length (bq_options q)) <= d_selected d)%Z ->
         d_is_correct d = false)
      (bank_questions data) (r_details r).
Proof.
  intros Hk. exists (graded quiz_key data payload).
  split; [by rewrite (submit_quiz_known _ _ data)|].
  pose proof (bank_answers_are_indices _ _ Hk) as Hidx.
  unfold graded. simpl.
  induction Hidx as [|q qs Hq _ IH]; simpl; constructor; [|exact IH].
  unfold detail_of, py_int. cbn [d_selected d_is_correct].
  intros Hout. apply Z.eqb_neq. lia.
Qed.

Lemma submit_quiz_out_of_range_incorrect_witness :
  QUIZ_BANK !! "network-topologies" = Some network_topologies /\
  exists r : QuizResult,
    (submit_quiz insert_ok "network-topologies"
       (mkQuizSubmission None "network-topologies"
          [("q1", 4%Z); ("q2", (-3)%Z)] None None None) []).1 = Ok r /\
    map d_selected (r_details r) = [4; -3; -1; -1; -1; -1]%Z /\
    r_score r = 0%Z.
Proof.
  assert (Hk : QUIZ_BANK !! "network-topologies" = Some network_topologies)
    by reflexivity.
  split; [exact Hk|].
  destruct (submit_quiz_out_of_range_incorrect insert_ok "network-topologies"
              network_topologies
              (mkQuizSubmission None "network-topologies"
                 [("q1", 4%Z); ("q2", (-3)%Z)] None None None) [] Hk)
    as (r & Hr & _).
  exists r. split; [exact Hr|].
  simpl in Hr. injection Hr as <-. by split.
Defined.

(** X4: the two quiz endpoints know the same keys, and what a submission
    reports lines up with what the fetch served: entry by entry the same
    id and question text, in the same order, with a [correct_answer] that
    is an index into the options served for that question. *)
Theorem quiz_endpoints_agree {Store : Type}
    (create_document : string -> Document -> Store -> result Exception string * Store)
    (quiz_key : string) (payload : QuizSubmission) (db : Store) :
  (get_quiz quiz_key = Err (mkHTTPException 404 "Quiz not found") /\
   (submit_quiz create_document quiz_key payload db).1 =
     Err (mkHTTPException 404 "Quiz not found")) \/
  (exists (qd : QuizDefinition) (r : QuizResult),
     get_quiz quiz_key = Ok qd /\
     (submit_quiz create_document quiz_key payload db).1 = Ok r /\
     Forall2
       (fun q d =>
          d_id d = qq_id q /\ d_question d = qq_question q /\
          (0 <= d_correct_answer d < Z.of_nat (length (qq_options q)))%Z)
       (questions qd) (r_details r)).
Proof.
  destruct (QUIZ_BANK !! quiz_key) as [data|] eqn:Hk.
  - right.
    pose proof (bank_answers_are_indices _ _ Hk) as Hidx.
    eexists _, (graded quiz_key data payload).
    split; [unfold get_quiz; by rewrite Hk|].
    split; [by rewrite (submit_quiz_known _ _ data)|].
    simpl. induction Hidx as [|q qs Hq _ IH]; simpl; constructor; [|exact IH].
    by repeat split; try apply Hq.
  - left. split.
    + unfold get_quiz. by rewrite Hk.
    + by rewrite submit_quiz_unknown.
Qed.

(** X5: an unanswered question cannot be told from one answered with -1:
    writing -1 under a key the answer map does not hold leaves score,
    total and details as they were. *)
Theorem submit_quiz_absent_is_minus_one {Store : Type}
    (create_document : string -> Document -> Store -> result Exception string * Store)
    (quiz_key : string) (payload : QuizSubmission) (k : string) (db : Store) :
  dict_lookup (answers payload) k = None ->
  (submit_quiz create_document quiz_key
     (with_answers payload (dict_set (answers payload) k (-1)%Z)) db).1 =
  (submit_quiz create_document quiz_key payload db).1.
Proof.
  intros Habsent.
  destruct (QUIZ_BANK !! quiz_key) as [data|] eqn:Hk.
  - rewrite !(submit_quiz_known _ _ data) by done. simpl. f_equal.
    unfold graded, with_answers. simpl.
    assert (Hm : map (detail_of (dict_set (answers payload) k (-1)%Z))
                     (bank_questions data) =
                 map (detail_of (answers payload)) (bank_questions data)).
    { apply map_ext. intros q. unfold detail_of.
      rewrite !dict_get_lookup.
      destruct (String.eqb_spec k (bq_id q)) as [->|Hne].
      - by rewrite dict_lookup_set_eq, Habsent.
      - by rewrite dict_lookup_set_ne. }
    by rewrite Hm.
  - by rewrite !submit_quiz_unknown.
Qed.

Lemma submit_quiz_absent_is_minus_one_witness :
  dict_lookup [("q1", 1%Z)] "q2" = None /\
  (submit_quiz insert_ok "network-topologies"
     (mkQuizSubmission None "network-topologies"
        [("q1", 1%Z); ("q2", (-1)%Z)] None None None) []).1 =
  (submit_quiz insert_ok "network-topologies"
     (mkQuizSubmission None "network-topologies"
        [("q1", 1%Z)] None None None) []).1.
Proof.
  split; [reflexivity|].
  apply (submit_quiz_absent_is_minus_one insert_ok "network-topologies"
           (mkQuizSubmission None "network-topologies" [("q1", 1%Z)] None None None)
           "q2" []).
  reflexivity.
Defined.

(** ** Request bodies *)

Lemma QuizSubmission_validate_answers validate_int fields payload :
  QuizSubmission_validate validate_int (JObj fields) = Some payload ->
  match dict_lookup fields "answers" with
  | None => Some []
  | Some j => validate_dict_int validate_int j
  end = Some (answers payload).
Proof.
  unfold QuizSubmission_validate. intros H.
  destruct (validate_optional validate_str _); simpl in H; [|done].
  destruct (dict_lookup fields "quiz_key" ≫= validate_str); simpl in H; [|done].
  destruct (match dict_lookup fields "answers" with
            | None => Some []
            | Some j => validate_dict_int validate_int j
            end) as [a|]; simpl in H; [|done].
  destruct (validate_optional validate_int (dict_lookup fields "score"));
    simpl in H; [|done].
  destruct (validate_optional validate_int (dict_lookup fields "total"));
    simpl in H; [|done].
  destruct (validate_optional validate_list_dict _); simpl in H; [|done].
  by injection H as <-.
Qed.

(** X6: a body that passes the schema without an [answers] key is graded
    as an empty submission: status 200, score 0, total the number of
    questions, every entry with [selected] -1. *)
Theorem submit_quiz_missing_answers {Store : Type}
    (create_document : string -> Document -> Store -> result Exception string * Store)
    (validate_int : json -> option Z)
    (quiz_key : string) (data : BankQuiz) (fields : pydict json)
    (payload : QuizSubmission) (db : Store) :
  QUIZ_BANK !! quiz_key = Some data ->
  QuizSubmission_validate validate_int (JObj fields) = Some payload ->
  dict_lookup fields "answers" = None ->
  exists r : QuizResult,
    (route_submit_quiz create_document validate_int quiz_key (JObj fields) db).1 =
      JSONResponse 200 (QuizResult_json r) /\
    r_score r = 0%Z /\
    r_total r = Z.of_nat (length (bank_questions data)) /\
    Forall (fun d => d_selected d = (-1)%Z /\ d_is_correct d = false) (r_details r).
Proof.
  intros Hk Hv Hnone.
  pose proof (QuizSubmission_validate_answers _ _ _ Hv) as Ha.
  rewrite Hnone in Ha. injection Ha as Ha.
  exists (graded quiz_key data payload). split.
  { unfold route_submit_quiz. by rewrite Hv, (submit_quiz_known _ _ data). }
  assert (Hnn : Forall (fun q => (0 <= bq_answer q)%Z) (bank_questions data)).
  { eapply Forall_impl; [exact (bank_answers_are_indices _ _ Hk)|].
    simpl. by intros q [? _]. }
  destruct (detail_of_empty _ Hnn) as [Hd Hc].
  unfold graded. simpl. rewrite <- Ha. by repeat split.
Qed.

Lemma submit_quiz_missing_answers_witness :
  QUIZ_BANK !! "network-topologies" = Some network_topologies /\
  exists r : QuizResult,
    (route_submit_quiz insert_ok int_only "network-topologies"
       (JObj [("quiz_key", JStr "network-topologies")]) []).1 =
      JSONResponse 200 (QuizResult_json r) /\
    r_score r = 0%Z /\
    r_total r = 6%Z.
Proof.
  assert (Hk : QUIZ_BANK !! "network-topologies" = Some network_topologies)
    by reflexivity.
  split; [exact Hk|].
  destruct (submit_quiz_missing_answers insert_ok int_only "network-topologies"
              network_topologies [("quiz_key", JStr "network-topologies")]
              (mkQuizSubmission None "network-topologies" [] None None None) []
              Hk eq_refl eq_refl)
    as (r & Hr & Hscore & Htotal & _).
  exists r. by repeat split.
Defined.

Lemma Reflection_validate_level validate_int body payload :
  Reflection_validate validate_int body = Some payload ->
  (1 <= understanding_level payload <= 5)%Z.
Proof.
  destruct body as [| | | | | |fields]; try discriminate.
  unfold Reflection_validate. intros H.
  destruct (dict_lookup fields "worksheet_id" ≫= validate_str); simpl in H; [|done].
  destruct (dict_lookup fields "student_name" ≫= validate_str); simpl in H; [|done].
  destruct (dict_lookup fields "understanding_level" ≫= validate_int_range validate_int 1 5)
    as [z|] eqn:Hz; simpl in H; [|done].
  destruct (validate_optional validate_str (dict_lookup fields "feelings"));
    simpl in H; [|done].
  destruct (validate_optional validate_str (dict_lookup fields "challenges"));
    simpl in H; [|done].
  destruct (validate_optional validate_str (dict_lookup fields "questions"));
    simpl in H; [|done].
  injection H as <-. simpl.
  destruct (dict_lookup fields "understanding_level") as [j|]; simpl in Hz; [|done].
  unfold validate_int_range in Hz.
  destruct (validate_int j) as [z'|]; simpl in Hz; [|done].
  destruct ((1 <=? z')%Z && (z' <=? 5)%Z) eqn:Hrange; [|done].
  injection Hz as <-. apply andb_prop in Hrange as [H1 H5]. lia.
Qed.

(** X8: a reflection whose [understanding_level] validates as an integer
    below 1 or above 5 is turned down by the schema: the answer is the
    validation error, the store is untouched, and [worksheet_id] is not
    even looked at. *)
Theorem reflection_level_out_of_range {Store oid : Type}
    (create_document : string -> Document -> Store -> result Exception string * Store)
    (ObjectId : string -> result Exception oid)
    (validate_int : json -> option Z)
    (fields : pydict json) (j : json) (z : Z) (db : Store) :
  dict_lookup fields "understanding_level" = Some j ->
  validate_int j = Some z ->
  (z < 1 \/ 5 < z)%Z ->
  route_post_reflections create_document ObjectId validate_int (JObj fields) db =
    (RequestValidationError, db).
Proof.
  intros Hj Hz Hout. unfold route_post_reflections.
  destruct (Reflection_validate validate_int (JObj fields)) as [payload|] eqn:Hv;
    [|done].
  exfalso.
  pose proof (Reflection_validate_level _ _ _ Hv) as Hin.
  revert Hv. unfold Reflection_validate. rewrite Hj. simpl.
  unfold validate_int_range. rewrite Hz. simpl.
  assert (Hb : (1 <=? z)%Z && (z <=? 5)%Z = false).
  { apply andb_false_iff. destruct Hout; [left|right]; apply Z.leb_gt; lia. }
  rewrite Hb.
  destruct (dict_lookup fields "worksheet_id" ≫= validate_str); simpl; [|done].
  by destruct (dict_lookup fields "student_name" ≫= validate_str).
Qed.

Lemma reflection_level_out_of_range_witness :
  route_post_reflections insert_ok hex24_ObjectId int_only
    (JObj [("worksheet_id", JStr "not-an-id"); ("student_name", JStr "Ada");
           ("understanding_level", JInt 6)]) [] =
    (RequestValidationError, []).
Proof.
  apply (reflection_level_out_of_range insert_ok hex24_ObjectId int_only
           [("worksheet_id", JStr "not-an-id"); ("student_name", JStr "Ada");
            ("understanding_level", JInt 6)] (JInt 6) 6 []);
    [reflexivity | reflexivity | lia].
Defined.

(** ** Reflections and worksheets, from the raw body *)

(** X9: a reflection is answered with status 200 only if it was stored:
    the body passed the schema with a level from 1 to 5, [ObjectId] took
    the worksheet id, the insert into the [reflection] collection returned
    an id, and the response is [{"id": id}] with the store as that insert
    left it. *)
Theorem reflection_ok_means_stored {Store oid : Type}
    (create_document : string -> Document -> Store -> result Exception string * Store)
    (ObjectId : string -> result Exception oid)
    (validate_int : json -> option Z)
    (body answer : json) (db db' : Store) :
  route_post_reflections create_document ObjectId validate_int body db =
    (JSONResponse 200 answer, db') ->
  exists (payload : Reflection) (o : oid) (inserted_id : string),
    Reflection_validate validate_int body = Some payload /\
    (1 <= understanding_level payload <= 5)%Z /\
    ObjectId (worksheet_id payload) = Ok o /\
    create_document "reflection" (DocReflection payload) db = (Ok inserted_id, db') /\
    answer = JObj [("id", JStr inserted_id)].
Proof.
  unfold route_post_reflections.
  destruct (Reflection_validate validate_int body) as [payload|] eqn:Hv; [|done].
  unfold route_submit_reflection, submit_reflection.
  destruct (ObjectId (worksheet_id payload)) as [o|bad] eqn:Ho; [|done].
  change (collection_name cls_Reflection) with "reflection".
  destruct (create_document "reflection" (DocReflection payload) db)
    as [[inserted_id|e] db''] eqn:Hins; [|done].
  intros [= <- <-].
  exists payload, o, inserted_id.
  split; [done|]. split; [by eapply Reflection_validate_level|]. by repeat split.
Qed.

Lemma reflection_ok_means_stored_witness :
  route_post_reflections insert_ok hex24_ObjectId int_only
    (JObj [("worksheet_id", JStr "0123456789abcdef01234567");
           ("student_name", JStr "Ada"); ("understanding_level", JInt 4)]) [] =
    (JSONResponse 200 (JObj [("id", JStr "0")]),
     [("reflection",
       DocReflection (mkReflection "0123456789abcdef01234567" "Ada" 4 None None None))]) /\
  exists (payload : Reflection) (inserted_id : string),
    understanding_level payload = 4%Z /\
    insert_ok "reflection" (DocReflection payload) [] =
      (Ok inserted_id, [("reflection", DocReflection payload)]).
Proof.
  assert (Hrun :
    route_post_reflections insert_ok hex24_ObjectId int_only
      (JObj [("worksheet_id", JStr "0123456789abcdef01234567");
             ("student_name", JStr "Ada"); ("understanding_level", JInt 4)]) [] =
      (JSONResponse 200 (JObj [("id", JStr "0")]),
       [("reflection",
         DocReflection (mkReflection "0123456789abcdef01234567" "Ada" 4 None None None))]))
    by reflexivity.
  split; [exact Hrun|].
  destruct (reflection_ok_means_stored insert_ok hex24_ObjectId int_only _ _ _ _ Hrun)
    as (payload & o & inserted_id & Hv & _ & _ & Hins & _).
  exists payload, inserted_id. split; [|].
  - simpl in Hv. by injection Hv as <-.
  - simpl in Hv. injection Hv as <-. exact Hins.
Defined.

(** X10: whatever the body, the store and the collaborators do, a
    reflection is answered with status 200, 400, 422 or 500, and with 400
    or 422 the store is left as it was. *)
Theorem reflection_statuses {Store oid : Type}
    (create_document : string -> Document -> Store -> result Exception string * Store)
    (ObjectId : string -> result Exception oid)
    (validate_int : json -> option Z)
    (body : json) (db : Store) :
  In (response_status
        (route_post_reflections create_document ObjectId validate_int body db).1)
     [200; 400; 422; 500]%Z /\
  (In (response_status
         (route_post_reflections create_document ObjectId validate_int body db).1)
      [400; 422]%Z ->
   (route_post_reflections create_document ObjectId validate_int body db).2 = db).
Proof.
  unfold route_post_reflections.
  destruct (Reflection_validate validate_int body) as [payload|]; simpl.
  - unfold route_submit_reflection, submit_reflection.
    destruct (ObjectId (worksheet_id payload)) as [o|bad]; simpl.
    + destruct (create_document _ _ db) as [[inserted_id|e] db']; simpl.
      * split; [auto|]. intros [H|[H|[]]]; discriminate H.
      * split; [auto 10|]. intros [H|[H|[]]]; discriminate H.
    + split; [auto|done].
  - split; [auto 10|done].
Qed.

(** X11: a worksheet body with [student_name] and [class_name] and neither
    [topic] nor [answers] is stored in the [worksheet] collection with the
    topic "Computer Network Topologies" and no answers; the response is
    [{"id": id}] when the insert returns, and status 500 with the text of
    the exception when it raises. *)
Theorem worksheet_defaults {Store : Type}
    (create_document : string -> Document -> Store -> result Exception string * Store)
    (fields : pydict json) (name class : string) (db : Store) :
  dict_lookup fields "student_name" = Some (JStr name) ->
  dict_lookup fields "class_name" = Some (JStr class) ->
  dict_lookup fields "topic" = None ->
  dict_lookup fields "answers" = None ->
  route_post_worksheets create_document (JObj fields) db =
    match create_document "worksheet"
            (DocWorksheet (mkWorksheet name class "Computer Network Topologies" [])) db
    with
    | (Ok inserted_id, db') =>
        (JSONResponse 200 (JObj [("id", JStr inserted_id)]), db')
    | (Err e, db') =>
        (JSONResponse 500 (JObj [("detail", JStr (str_exc e))]), db')
    end.
Proof.
  intros Hname Hclass Htopic Hanswers.
  unfold route_post_worksheets, Worksheet_validate.
  rewrite Hname, Hclass, Htopic, Hanswers. simpl.
  unfold submit_worksheet.
  change (collection_name cls_Worksheet) with "worksheet".
  by destruct (create_document _ _ db) as [[inserted_id|e] db'].
Qed.

Lemma worksheet_defaults_witness :
  route_post_worksheets insert_ok
    (JObj [("class_name", JStr "9B"); ("student_name", JStr "Ada")]) [] =
    (JSONResponse 200 (JObj [("id", JStr "0")]),
     [("worksheet",
       DocWorksheet (mkWorksheet "Ada" "9B" "Computer Network Topologies" []))]) /\
  route_post_worksheets insert_fails
    (JObj [("class_name", JStr "9B"); ("student_name", JStr "Ada")]) [] =
    (JSONResponse 500 (JObj [("detail", JStr "Database not available")]), []).
Proof.
  split.
  - apply (worksheet_defaults insert_ok
             [("class_name", JStr "9B"); ("student_name", JStr "Ada")] "Ada" "9B" []);
      reflexivity.
  - apply (worksheet_defaults insert_fails
             [("class_name", JStr "9B"); ("student_name", JStr "Ada")] "Ada" "9B" []);
      reflexivity.
Defined.

(** X12: a worksheet is answered with status 200, 422 or 500; a body
    without [student_name] or without [class_name] gets 422, and with 422
    nothing reaches the store. *)
Theorem worksheet_statuses {Store : Type}
    (create_document : string -> Document -> Store -> result Exception string * Store)
    (body : json) (db : Store) :
  In (response_status (route_post_worksheets create_document body db).1)
     [200; 422; 500]%Z /\
  (response_status (route_post_worksheets create_document body db).1 = 422%Z ->
   (route_post_worksheets create_document body db).2 = db) /\
  (json_field body "student_name" = None \/ json_field body "class_name" = None ->
   route_post_worksheets create_document body db = (RequestValidationError, db)).
Proof.
  unfold route_post_worksheets. split; [|split].
  - destruct (Worksheet_validate body) as [payload|]; simpl; [|auto].
    unfold submit_worksheet.
    destruct (create_document _ _ db) as [[inserted_id|e] db']; simpl; auto.
  - destruct (Worksheet_validate body) as [payload|]; simpl; [|done].
    unfold submit_worksheet.
    destruct (create_document _ _ db) as [[inserted_id|e] db']; simpl; discriminate.
  - intros Hmissing.
    assert (Hv : Worksheet_validate body = None); [|by rewrite Hv].
    destruct body as [| | | | | |fields]; try reflexivity.
    unfold Worksheet_validate. simpl in Hmissing.
    destruct Hmissing as [-> | Hc]; [done|].
    rewrite Hc.
    by destruct (dict_lookup fields "student_name" ≫= validate_str).
Qed.

(** ** Listing worksheets *)

Lemma stringify_id_spec {A : Type} (str_other : A -> string) (d : pydict (pyval A)) :
  dict_lookup (stringify_id str_other d) "_id" =
    Some match dict_lookup d "_id" with
         | Some v => PyStr (py_str str_other v)
         | None => PyNone
         end /\
  (forall k, k <> "_id" -> dict_lookup (stringify_id str_other d) k = dict_lookup d k) /\
  dict_keys (stringify_id str_other d) =
    match dict_lookup d "_id" with
    | Some _ => dict_keys d
    | None => dict_keys d ++ ["_id"]
    end /\
  (dict_wf d -> dict_wf (stringify_id str_other d)).
Proof.
  unfold stringify_id. split; [apply dict_lookup_set_eq|].
  split; [intros k Hk; by apply dict_lookup_set_ne|].
  split; [apply dict_keys_set | apply dict_wf_set].
Qed.

(** X13: when [get_documents] returns, [list_worksheets] returns the
    documents one for one and in order; each carries an [_id] that is the
    [str] of the stored one, or [None] if the document had none, put in
    the place of the old [_id] or else last, and every other key with
    its value as stored.  When [get_documents] raises, the answer is
    status 500 with the text of the exception. *)
Theorem list_worksheets_ids {Store A : Type} (str_other : A -> string)
    (get_documents : string -> Store -> result Exception (list (pydict (pyval A))))
    (db : Store) :
  match get_documents "worksheet" db with
  | Ok docs =>
      exists out : list (pydict (pyval A)),
        list_worksheets str_other get_documents db = Ok out /\
        Forall2
          (fun d o =>
             dict_lookup o "_id" =
               Some match dict_lookup d "_id" with
                    | Some v => PyStr (py_str str_other v)
                    | None => PyNone
                    end /\
             (forall k, k <> "_id" -> dict_lookup o k = dict_lookup d k) /\
             dict_keys o =
               match dict_lookup d "_id" with
               | Some _ => dict_keys d
               | None => dict_keys d ++ ["_id"]
               end /\
             (dict_wf d -> dict_wf o))
          docs out
  | Err e =>
      list_worksheets str_other get_documents db =
        Err (mkHTTPException 500 (str_exc e))
  end.
Proof.
  unfold list_worksheets.
  change (collection_name cls_Worksheet) with "worksheet".
  destruct (get_documents "worksheet" db) as [docs|e]; [|done].
  eexists. split; [reflexivity|].
  induction docs as [|d docs IH]; simpl; constructor; [|exact IH].
  apply stringify_id_spec.
Qed.

(** ** The diagnostic endpoint *)





(** X14: the [database_url] and [database_name] fields of the diagnostic
    response report the environment and nothing else: each is "✅ Set" when
    its variable is set to a non-empty string and "❌ Not Set" otherwise,
    whatever the state of the database; the name of the database never
    shows. *)
Theorem test_database_env_fields (db db' : option Database)
    (getenv : string -> option string) :
  t_database_url (test_database db getenv) =
    t_database_url (test_database db' getenv) /\
  t_database_name (test_database db getenv) =
    t_database_name (test_database db' getenv) /\
  (t_database_url (test_database db getenv) = Some "✅ Set" <->
   exists v, getenv "DATABASE_URL" = Some v /\ v <> "") /\
  (t_database_name (test_database db getenv) = Some "✅ Set" <->
   exists v, getenv "DATABASE_NAME" = Some v /\ v <> "") /\
  (t_database_url (test_database db getenv) = Some "✅ Set" \/
   t_database_url (test_database db getenv) = Some "❌ Not Set") /\
  (t_database_name (test_database db getenv) = Some "✅ Set" \/
   t_database_name (test_database db getenv) = Some "❌ Not Set").
Proof.
  assert (Henv : forall v : option string,
            env_truthy v = true <-> exists s, v = Some s /\ s <> "").
  { intros [[|c s]|]; simpl; split; try done.
    - intros (s & [= <-] & Hs). done.
    - intros _. by eexists.
    - intros (s & Hs & _). done. }
  assert (Hurl : forall d, t_database_url (test_database d getenv) =
            Some (if env_truthy (getenv "DATABASE_URL") then "✅ Set" else "❌ Not Set")).
  { intros [d|]; [|reflexivity].
    unfold test_database. by destruct (list_collection_names d). }
  assert (Hname : forall d, t_database_name (test_database d getenv) =
            Some (if env_truthy (getenv "DATABASE_NAME") then "✅ Set" else "❌ Not Set")).
  { intros [d|]; [|reflexivity].
    unfold test_database. by destruct (list_collection_names d). }
  rewrite !Hurl, !Hname, <- !Henv.
  split; [done|]. split; [done|].
  destruct (env_truthy (getenv "DATABASE_URL")),
           (env_truthy (getenv "DATABASE_NAME"));
    repeat split; auto; discriminate.
Qed.

(** X15: the diagnostic response lists at most 10 collections, the first 10
    that the database names, and none unless the database is there and
    answers; [connection_status] is "Connected" exactly when the module has
    a database object, and [database] is "✅ Connected & Working" exactly when that
    object also lists its collections. *)
Theorem test_database_collections (db : option Database)
    (getenv : string -> option string) :
  (length (t_collections (test_database db getenv)) <= 10)%nat /\
  t_collections (test_database db getenv) =
    match db with
    | Some d =>
        match list_collection_names d with
        | Ok names => take 10 names
        | Err _ => []
        end
    | None => []
    end /\
  (t_connection_status (test_database db getenv) = "Connected" <-> db <> None) /\
  (t_database (test_database db getenv) = "✅ Connected & Working" <->
   exists d names, db = Some d /\ list_collection_names d = Ok names) /\
  t_backend (test_database db getenv) = "✅ Running".
Proof.
  destruct db as [[name [names|e]]|]; simpl.
  - split; [rewrite length_take; lia|]. split; [done|]. split; [done|].
    split; [|done]. split; [|done]. intros _. by eexists _, _.
  - split; [lia|]. split; [done|]. split; [done|].
    split; [|done]. split; [discriminate|].
    intros (d & names & [= <-] & Hn). discriminate Hn.
  - split; [lia|]. split; [done|]. split; [split; [discriminate|done]|].
    split; [|done]. split; [discriminate|].
    intros (d & names & Hd & _). discriminate Hd.
Qed.



(** ** Collections *)

(** X17: [collection_name] gives every schema a collection of its own, the
    lower-case class name: [worksheet] for [Worksheet], as the schema
    module says, [reflection] for [Reflection]; and the collection that
    [submit_quiz] names by hand is the one of [QuizSubmission]. *)
Theorem collection_name_convention :
  (forall c1 c2 : model_cls, collection_name c1 = collection_name c2 -> c1 = c2) /\
  (forall c : model_cls, lower (collection_name c) = collection_name c) /\
  (forall c : model_cls,
     String.length (collection_name c) = String.length (cls_name c)) /\
  collection_name cls_Worksheet = "worksheet" /\
  collection_name cls_Reflection = "reflection" /\
  (forall (Store : Type)
          (create_document : string -> Document -> Store -> result Exception string * Store)
          (quiz_key : string) (data : BankQuiz) (payload : QuizSubmission) (db : Store),
     QUIZ_BANK !! quiz_key = Some data ->
     exists r : QuizResult,
       submit_quiz create_document quiz_key payload db =
         (Ok r, (create_document (collection_name cls_QuizSubmission)
                   (DocQuizResult r) db).2)).
Proof.
  split; [intros [] []; simpl; first [reflexivity | discriminate]|].
  split; [by intros []|]. split; [by intros []|].
  split; [reflexivity|]. split; [reflexivity|].
  intros Store create_document quiz_key data payload db Hk.
  exists (graded quiz_key data payload).
  by rewrite (submit_quiz_known _ _ data).
Qed.

(** ** Statuses of a submission *)

(** X18: a submission is answered with status 200, 404 or 422; with 404 or
    422 the store is left as it was; and the status is 200 exactly when the
    body passes the schema and the quiz key of the path is in the bank,
    whether or not the result could be stored. *)
Theorem submit_quiz_statuses {Store : Type}
    (create_document : string -> Document -> Store -> result Exception string * Store)
    (validate_int : json -> option Z)
    (quiz_key : string) (body : json) (db : Store) :
  In (response_status
        (route_submit_quiz create_document validate_int quiz_key body db).1)
     [200; 404; 422]%Z /\
  (In (response_status
         (route_submit_quiz create_document validate_int quiz_key body db).1)
      [404; 422]%Z ->
   (route_submit_quiz create_document validate_int quiz_key body db).2 = db) /\
  (response_status
     (route_submit_quiz create_document validate_int quiz_key body db).1 = 200%Z <->
   exists payload data,
     QuizSubmission_validate validate_int body = Some payload /\
     QUIZ_BANK !! quiz_key = Some data).
Proof.
  unfold route_submit_quiz.
  destruct (QuizSubmission_validate validate_int body) as [payload|]; simpl.
  - destruct (QUIZ_BANK !! quiz_key) as [data|] eqn:Hk.
    + rewrite (submit_quiz_known _ _ data) by done. simpl.
      split; [auto|]. split.
      * intros [H|[H|[]]]; discriminate H.
      * split; [|done]. intros _. by exists payload, data.
    + rewrite submit_quiz_unknown by done. simpl.
      split; [auto|]. split; [done|]. split; [discriminate|].
      intros (_ & data & _ & Hd). discriminate Hd.
  - split; [auto 10|]. split; [done|]. split; [discriminate|].
    intros (payload & _ & Hp & _). discriminate Hp.
Qed.

(** ** Correcting one answer *)

Lemma detail_of_set_other a k v qs :
  k ∉ map bq_id qs ->
  map (detail_of (dict_set a k v)) qs = map (detail_of a) qs.
Proof.
  intros Hk. apply detail_of_ext, Forall_forall. intros q Hq.
  apply dict_lookup_set_ne. intros ->. apply Hk.
  apply list_elem_of_fmap. by exists q.
Qed.

Lemma count_correct_set_answer a q qs :
  NoDup (map bq_id qs) ->
  q ∈ qs ->
  count_correct (map (detail_of (dict_set a (bq_id q) (bq_answer q))) qs) =
  (count_correct (map (detail_of a) qs) +
   (if d_is_correct (detail_of a q) then 0 else 1))%Z.
Proof.
  induction qs as [|q0 qs IH]; intros Hnd Hin.
  - by apply elem_of_nil in Hin.
  - cbn [map] in *. apply NoDup_cons in Hnd as [Hq0 Hnd].
    rewrite !count_correct_cons.
    apply elem_of_cons in Hin as [->|Hin].
    + rewrite detail_of_set_other by done.
      assert (Hnow : d_is_correct
                (detail_of (dict_set a (bq_id q0) (bq_answer q0)) q0) = true).
      { unfold detail_of, py_int. cbn [d_is_correct].
        rewrite dict_get_lookup, dict_lookup_set_eq. simpl. apply Z.eqb_refl. }
      rewrite Hnow. destruct (d_is_correct (detail_of a q0)); lia.
    + rewrite IH by done.
      assert (Hne : bq_id q <> bq_id q0).
      { intros Heq. apply Hq0. rewrite <- Heq.
        apply list_elem_of_fmap. by exists q. }
      assert (Hsame : detail_of (dict_set a (bq_id q) (bq_answer q)) q0 =
                      detail_of a q0).
      { unfold detail_of. rewrite !dict_get_lookup.
        by rewrite dict_lookup_set_ne. }
      rewrite Hsame. lia.
Qed.

(** The question ids of a bank quiz are distinct. *)
Lemma bank_ids_NoDup quiz_key data :
  QUIZ_BANK !! quiz_key = Some data -> NoDup (map bq_id (bank_questions data)).
Proof.
  intros Hk. apply bank_lookup_Some in Hk as [_ ->].
  apply (bool_decide_unpack _). vm_compute. exact I.
Qed.

(** X19: writing the stored correct answer of one question into the answer
    map, under that question's id, never lowers the score: it stays as it
    was if the question was already answered correctly and grows by exactly
    one if it was not; the total does not move. *)
Theorem submit_quiz_fix_one_answer {Store : Type}
    (create_document : string -> Document -> Store -> result Exception string * Store)
    (quiz_key : string) (data : BankQuiz) (payload : QuizSubmission)
    (q : BankQuestion) (db : Store) :
  QUIZ_BANK !! quiz_key = Some data ->
  In q (bank_questions data) ->
  exists r r' : QuizResult,
    (submit_quiz create_document quiz_key payload db).1 = Ok r /\
    (submit_quiz create_document quiz_key
       (with_answers payload (dict_set (answers payload) (bq_id q) (bq_answer q)))
       db).1 = Ok r' /\
    r_total r' = r_total r /\
    r_score r' =
      (r_score r +
       (if (dict_get (answers payload) (bq_id q) (-1) =? bq_answer q)%Z
        then 0 else 1))%Z.
Proof.
  intros Hk Hin. eexists _, _.
  rewrite !(submit_quiz_known _ _ data) by done. simpl.
  split; [reflexivity|]. split; [reflexivity|]. split; [reflexivity|].
  apply count_correct_set_answer.
  - by eapply bank_ids_NoDup.
  - by apply list_elem_of_In.
Qed.

Lemma submit_quiz_fix_one_answer_witness :
  QUIZ_BANK !! "network-topologies" = Some network_topologies /\
  exists r r' : QuizResult,
    (submit_quiz insert_ok "network-topologies"
       (mkQuizSubmission None "network-topologies"
          [("q1", 1%Z); ("q6", 0%Z)] None None None) []).1 = Ok r /\
    (submit_quiz insert_ok "network-topologies"
       (mkQuizSubmission None "network-topologies"
          [("q1", 1%Z); ("q6", 2%Z)] None None None) []).1 = Ok r' /\
    r_total r' = r_total r /\
    r_score r' = (r_score r + 1)%Z.
Proof.
  assert (Hk : QUIZ_BANK !! "network-topologies" = Some network_topologies)
    by reflexivity.
  split; [exact Hk|].
  apply (submit_quiz_fix_one_answer insert_ok "network-topologies"
           network_topologies
           (mkQuizSubmission None "network-topologies"
              [("q1", 1%Z); ("q6", 0%Z)] None None None)
           (mkBankQuestion "q6" "A network combining multiple topology types is called?"
              ["Composite"; "Mixed"; "Hybrid"; "Aggregate"] 2)
           [] Hk).
  simpl. auto 10.
Defined.
